(** * rex: multi-resolution resource composition and temporal statistics

    A shallow embedding of [rex/multi_res_resource.py] and of the statistics
    core of [rex/temporal_stats/temporal_stats.py].

    Python values are modelled by small inductive types, exceptions by an
    explicit [result] type with the exception class as data, and local
    variables that a function may leave unassigned by an [option] that is
    read at the point of use (reading [None] is Python's
    [UnboundLocalError]).  Floating-point samples are kept abstract: the
    code's control flow never inspects them, except for the sign test of
    [weighted_circular_mean]; module [Float32] interprets them in IEEE
    binary32, the arithmetic of that function's degrees path. *)

From Stdlib Require Import ZArith QArith Ascii String SpecFloat.
From stdpp Require Import gmap strings list pretty.

Close Scope Q_scope.
Local Open Scope Z_scope.

(** ** Python values, exceptions and results *)

Module Py.

(** Hashable scalars: the elements of the list- and tuple-valued handler
    attributes (dataset names, shapes) and the keys of the dict-valued ones. *)
Inductive atom :=
  | AInt (z : Z)
  | AStr (s : string).

#[global] Instance atom_eq_dec : EqDecision atom.
Proof. solve_decision. Defined.

#[global] Instance atom_countable : Countable atom.
Proof.
  refine (inj_countable'
            (fun a => match a with AInt z => inl z | AStr s => inr s end)
            (fun x => match x with inl z => AInt z | inr s => AStr s end) _).
  by intros [].
Defined.

(** The values an attribute of a resource handler can hold.  [VObj] stands
    for every object that is neither a list, a tuple, a dict, a scalar nor
    [None]: bound methods, data frames, arrays. *)
#[warnings="-register-all"]
Inductive pyval :=
  | VNone
  | VAtom (a : atom)
  | VList (l : list atom)
  | VTuple (l : list atom)
  | VDict (d : list (atom * pyval))
  | VObj (name : string).

(** Messages of the two [RuntimeError]s the source builds with [format]:
    the fields are the formatted arguments. *)
Inductive message :=
  | MsgShapes (weights_shape data_shape : list nat)
  | MsgCombine (attr : string) (hr_attr lr_attr : pyval).

Inductive exn :=
  | AttributeError (name : string)
  | UnboundLocalError (var : string)
  | TypeError (what : string)
  | IndexError
  | KeyError
  | ValueError (what : string)
  | AssertionError
  | StopIteration
  | RuntimeError (msg : message)
  | ResourceRuntimeError (msg : string)
  | OSError (msg : string).

Inductive result (A : Type) :=
  | Return (a : A)
  | Raise (e : exn).
Arguments Return {A} a.
Arguments Raise {A} e.

#[global] Instance result_ret : MRet result := fun A a => Return a.

#[global] Instance result_bind : MBind result := fun A B k c =>
  match c with
  | Return a => k a
  | Raise e => Raise e
  end.

#[global] Instance result_fmap : FMap result := fun A B f c =>
  match c with
  | Return a => Return (f a)
  | Raise e => Raise e
  end.

Definition returns {A} (c : result A) : Prop := exists a, c = Return a.
Definition raises {A} (c : result A) : Prop := exists e, c = Raise e.

(** Reading a local variable: unassigned locals raise. *)
Definition read_local {A} (var : string) (x : option A) : result A :=
  match x with
  | Some a => Return a
  | None => Raise (UnboundLocalError var)
  end.

(** *** Index selectors: [int], [slice], [list], [ndarray] *)

Inductive selector :=
  | SInt (i : Z)
  | SSlice (start stop step : option Z)
  | SList (l : list Z)
  | SArray (l : list Z).

(** [slice(None)] *)
Definition slice_all : selector := SSlice None None None.

(** [slice.indices(length)], after CPython's [slice_indices]. *)
Definition clamp_index (length lower upper : Z) (o : option Z) (dflt : Z) : Z :=
  match o with
  | None => dflt
  | Some i =>
      if i <? 0 then Z.max (i + length) lower else Z.min i upper
  end.

Definition slice_indices (start stop step : option Z) (length : Z)
  : result (Z * Z * Z) :=
  if length <? 0 then Raise (ValueError "length should not be negative")
  else
    let st := default 1 step in
    if st =? 0 then Raise (ValueError "slice step cannot be zero")
    else
      let lower := if st <? 0 then -1 else 0 in
      let upper := if st <? 0 then length - 1 else length in
      let start' :=
        clamp_index length lower upper start (if st <? 0 then upper else lower) in
      let stop' :=
        clamp_index length lower upper stop (if st <? 0 then lower else upper) in
      Return (start', stop', st).

(** [list(range(start, stop, step))] for a non-zero step. *)
Definition range_len (start stop step : Z) : Z :=
  if 0 <? step then
    (if start <? stop then (stop - start - 1) / step + 1 else 0)
  else
    (if stop <? start then (start - stop - 1) / (- step) + 1 else 0).

Definition range (start stop step : Z) : list Z :=
  map (fun k => start + Z.of_nat k * step)
      (seq 0 (Z.to_nat (range_len start stop step))).

(** Truth value of an optional integer: [None] and [0] are falsy. *)
Definition truthy (o : option Z) : bool :=
  match o with
  | None => false
  | Some z => negb (z =? 0)
  end.

End Py.

Export Py.

(** ** numpy arrays over an abstract floating-point type *)

Module Np.
Import Py.

(** The floating-point primitives numpy supplies.  Nothing is assumed about
    rounding: every statement below holds for each interpretation. *)
Class FloatOps (F : Type) := {
  f_of_Z : Z -> F;
  f_add : F -> F -> F;
  f_mul : F -> F -> F;
  f_div : F -> F -> F;
  f_exp : F -> F;
  f_sin : F -> F;
  f_cos : F -> F;
  f_arctan2 : F -> F -> F;
  f_radians : F -> F;
  f_degrees : F -> F;
  f_ltb : F -> F -> bool;
}.

(** The kinds of dtype the code's behaviour depends on: the in-place
    division [weights /= s] writes float results back into the array, which
    numpy refuses for an integer or boolean array. *)
Inductive dtype :=
  | dt_float
  | dt_int
  | dt_bool.

#[global] Instance dtype_eq_dec : EqDecision dtype.
Proof. solve_decision. Defined.

(** An array: its dtype, its shape and its entries in row-major order.
    The entries of an integer or boolean array are kept as the floats
    they convert to. *)
Record ndarray (F : Type) := Ndarray {
  dtype_of : dtype;
  shape : list nat;
  flat : list F;
}.
Arguments Ndarray {F} dtype_of shape flat.
Arguments dtype_of {F} n.
Arguments shape {F} n.
Arguments flat {F} n.

Section ops.
Context {F : Type} {ops : FloatOps F}.

(** The ufuncs of the code ([exp], [sin], [cos], [radians], [degrees],
    [arctan2], the product with float operands) give float arrays. *)
Definition np_map (f : F -> F) (a : ndarray F) : ndarray F :=
  Ndarray dt_float (shape a) (map f (flat a)).

Definition np_zip (f : F -> F -> F) (a b : ndarray F) : ndarray F :=
  Ndarray dt_float (shape a) (zip_with f (flat a) (flat b)).

Definition np_exp := np_map f_exp.
Definition np_sin := np_map f_sin.
Definition np_cos := np_map f_cos.
Definition np_radians := np_map f_radians.
Definition np_degrees := np_map f_degrees.
Definition np_arctan2 := np_zip f_arctan2.

(** [np.sum(a)]: the sum of all entries. *)
Definition np_sum (a : ndarray F) : F := foldl f_add (f_of_Z 0) (flat a).

(** [a /= s]: the quotients are floats and are written into [a], which
    the casting rule allows for a float array only; for the others numpy
    raises [UFuncTypeError], a [TypeError], and leaves [a] as it is. *)
Definition np_idiv (a : ndarray F) (s : F) : result (ndarray F) :=
  match dtype_of a with
  | dt_float => Return (np_map (fun x => f_div x s) a)
  | dt_int | dt_bool => Raise (TypeError "Cannot cast ufunc 'divide' output")
  end.
End ops.

End Np.

Export Np.

(** ** temporal_stats.py *)

Module TemporalStats.

(** An entry of a [pandas.DatetimeIndex]. *)
Record Timestamp := {
  ts_year : Z;
  ts_month : Z;
  ts_day : Z;
  ts_hour : Z;
  ts_minute : Z;
}.

(** [str.lower] on ASCII letters. *)
Definition lower_char (c : ascii) : ascii :=
  let n := nat_of_ascii c in
  if ((65 <=? n) && (n <=? 90))%nat then ascii_of_nat (n + 32) else c.

Fixpoint lower (s : string) : string :=
  match s with
  | EmptyString => EmptyString
  | String c s' => String (lower_char c) (lower s')
  end.

(** ['-'.join(l)] *)
Fixpoint join (sep : string) (l : list string) : string :=
  match l with
  | [] => EmptyString
  | [x] => x
  | x :: l' => x +:+ sep +:+ join sep l'
  end.

(** Lexicographic comparison of group keys. *)
Fixpoint key_cmp (a b : list Z) : comparison :=
  match a, b with
  | [], [] => Eq
  | [], _ :: _ => Lt
  | _ :: _, [] => Gt
  | x :: a', y :: b' =>
      match x ?= y with
      | Eq => key_cmp a' b'
      | c => c
      end
  end.

Fixpoint insert_key (k : list Z) (l : list (list Z)) : list (list Z) :=
  match l with
  | [] => [k]
  | k' :: l' =>
      match key_cmp k k' with
      | Lt => k :: l
      | Eq => l
      | Gt => k' :: insert_key k l'
      end
  end.

(** The distinct keys in ascending order. *)
Definition unique_keys (ks : list (list Z)) : list (list Z) :=
  foldr insert_key [] ks.

Definition take_rows {A} (mask : list bool) (l : list A) : list A :=
  map snd (List.filter fst (zip mask l)).

(** [_format_grp_names]: one formatter per key component, chosen by the
    component's largest value. *)
Definition month_map (s : Z) : option string :=
  match s with
  | 1 => Some "Jan" | 2 => Some "Feb" | 3 => Some "Mar" | 4 => Some "Apr"
  | 5 => Some "May" | 6 => Some "Jun" | 7 => Some "Jul" | 8 => Some "Aug"
  | 9 => Some "Sep" | 10 => Some "Oct" | 11 => Some "Nov" | 12 => Some "Dec"
  | _ => None
  end.

Definition fmt_year (s : Z) : result string := Return (pretty s).

Definition fmt_month (s : Z) : result string :=
  match month_map s with
  | Some m => Return m
  | None => Raise KeyError
  end.

(** ["{:02d}:00UTC".format(s)] *)
Definition fmt_hour (s : Z) : result string :=
  let d := pretty s in
  Return ((if (String.length d <? 2)%nat then "0" +:+ d else d) +:+ ":00UTC").

Definition list_max (l : list Z) : result Z :=
  match l with
  | [] => Raise (ValueError "zero-size array to reduction operation maximum")
  | x :: l' => Return (foldl Z.max x l')
  end.

(** The components of a list of keys: [np.array(grp_names).T], expanded
    to two dimensions when the keys are scalars. *)
Definition components (grp_names : list (list Z)) : list (list Z) :=
  match grp_names with
  | [] => [[]]
  | k :: _ => map (fun j => map (fun key => nth j key 0) grp_names)
                  (seq 0 (length k))
  end.

Definition _format_grp_names (grp_names : list (list Z))
  : result (list (list string)) :=
  out ← mapM (fun grp_i =>
                grp_max ← list_max grp_i;
                if grp_max <=? 12 then mapM fmt_month grp_i
                else if grp_max <=? 23 then mapM fmt_hour grp_i
                else mapM fmt_year grp_i)
             (components grp_names);
  Return (map (fun g => map (fun comp => nth g comp EmptyString) out)
              (seq 0 (length grp_names))).

(** [_create_names]: the column names of each statistic, in the order of
    the dict the source builds. *)
Definition _create_names (groups : list (list Z)) (stats : list string)
  : result (list (string * list string)) :=
  group_names ← _format_grp_names groups;
  Return (map (fun s => (s, map (fun n => join "-" n +:+ "_" +:+ s) group_names))
              stats).

(** Lookup in a dict with string keys. *)
Fixpoint dict_get {A} (k : string) (d : list (string * A)) : option A :=
  match d with
  | [] => None
  | (k', v) :: d' => if decide (k = k') then Some v else dict_get k d'
  end.

Section stats.
Context {F : Type} {ops : FloatOps F}.

(** [np.nanmean(a, axis=axis)], the reduction numpy performs along one
    axis, is a parameter. *)
Variable np_nanmean : ndarray F -> Z -> result (ndarray F).

(** The [weights] operand of the two products: the scalar [1] or an
    array of the data's shape. *)
Inductive operand :=
  | Scalar (x : F)
  | Array (a : ndarray F).

Definition np_times (a : ndarray F) (w : operand) : ndarray F :=
  match w with
  | Scalar x => np_map (fun y => f_mul y x) a
  | Array b => np_zip f_mul a b
  end.

(** The computation that follows the shape check. *)
Definition circular_mean_of (data : ndarray F) (weights : operand)
    (degrees : bool) (axis : Z) : result (ndarray F) :=
  let data := if degrees then np_radians data else data in
  sin ← np_nanmean (np_times (np_sin data) weights) axis;
  cos ← np_nanmean (np_times (np_cos data) weights) axis;
  let mean := np_arctan2 sin cos in
  Return (if degrees then
            np_map (fun m => if f_ltb m (f_of_Z 0)
                             then f_add m (f_of_Z 360) else m)
                   (np_degrees mean)
          else mean).

(** [weighted_circular_mean(data, weights, degrees, axis, norm_weights,
    exponential_weights)].

    [np.exp] makes a new float array, while [weights /= np.sum(weights)]
    writes into the array it is applied to, which is the caller's own when
    no exponential was taken, and raises when that array is not a float
    array.  The first component of the result is the
    caller's weights array as the call leaves it, the second what the
    call returns or raises. *)
Definition weighted_circular_mean (data : ndarray F)
    (weights : option (ndarray F)) (degrees : bool) (axis : Z)
    (norm_weights exponential_weights : bool)
  : option (ndarray F) * result (ndarray F) :=
  match weights with
  | None => (None, circular_mean_of data (Scalar (f_of_Z 1)) degrees axis)
  | Some passed =>
      if decide (shape data ≠ shape passed) then
        let weights :=
          if exponential_weights then np_exp passed else passed in
        match (if norm_weights then np_idiv weights (np_sum weights)
               else Return weights) with
        | Return weights =>
            (Some (if exponential_weights then passed else weights),
             Raise (RuntimeError (MsgShapes (shape weights) (shape data))))
        | Raise e => (Some passed, Raise e)
        end
      else (Some passed, circular_mean_of data (Array passed) degrees axis)
  end.

(** *** Data frames, grouping and the statistics request

    A (time, sites) table is stored as the list of its site columns; its
    rows are labelled by the time index. *)

Record DataFrame := {
  index : list Timestamp;
  columns : list (list F);
}.

(** A [groupby] object: the groups in ascending key order, each key a
    month, an hour, or a (month, hour) pair. *)
Definition GroupBy : Type := list (list Z * DataFrame).

Inductive frame :=
  | Frame (df : DataFrame)
  | Grouped (g : GroupBy).

(** The result of a reduction: named columns, one value per site. *)
Definition Table : Type := list (string * list F).

(** A statistic's function, seen through its two call shapes:
    [func(data, weights=w, **kwargs)] and the per-column application
    [aggregate] performs.  The kwargs other than [weights] are part of
    the function. *)
Record Callable := {
  call_weighted : frame -> option frame -> result (list F);
  call_column : list F -> F;
}.

Record Stat := {
  func : Callable;
  kwargs : option (option frame);  (* ['kwargs'] and its ['weights'] entry *)
}.

Definition row_keys (groupby : list (list Z)) (n : nat) : list (list Z) :=
  map (fun i => map (fun g => nth i g 0) groupby) (seq 0 n).

(** [res_data.groupby(groupby)] *)
Definition pd_groupby (df : DataFrame) (groupby : list (list Z)) : GroupBy :=
  let ks := row_keys groupby (length (index df)) in
  map (fun k =>
         let mask := map (fun k' => bool_decide (k' = k)) ks in
         (k, {| index := take_rows mask (index df);
                columns := map (take_rows mask) (columns df) |}))
      (unique_keys ks).

(** [weights.get_group(grp_name)]: only a [groupby] object has it. *)
Definition get_group (w : frame) (grp_name : list Z) : result frame :=
  match w with
  | Frame _ => Raise (AttributeError "get_group")
  | Grouped g =>
      match List.find (fun kd => bool_decide (kd.1 = grp_name)) g with
      | Some kd => Return (Frame kd.2)
      | None => Raise KeyError
      end
  end.

(** [l[key] = v] on a Python list: a key that is one integer must be in
    range, a tuple key is a type error. *)
Definition list_setitem {A} (l : list A) (key : list Z) (v : A)
  : result (list A) :=
  match key with
  | [k] =>
      let n := Z.of_nat (length l) in
      if (- n <=? k) && (k <? n)
      then Return (<[Z.to_nat (if k <? 0 then k + n else k) := v]> l)
      else Raise IndexError
  | _ => Raise (TypeError "list indices must be integers or slices, not tuple")
  end.

(** [pd.DataFrame(rows, columns=names)] *)
Definition pd_DataFrame (rows : list (list F)) (names : list string)
  : result Table :=
  if forallb (fun r => (length r =? length names)%nat) rows
  then Return (imap (fun j c => (c, omap (fun r => r !! j) rows)) names)
  else Raise (ValueError "columns passed do not match the data")%string.

(** The iteration [for grp_name, res_grp in res_data] with the loop body
    of [_compute_weighted_stats]; [s_data] is the list the loop writes. *)
Fixpoint weighted_loop (func : Callable) (weights : option frame)
    (groups : GroupBy) (s_data : list (list F)) : result (list (list F)) :=
  match groups with
  | [] => Return s_data
  | (grp_name, res_grp) :: groups' =>
      grp_w ← match weights with
              | Some w => w' ← get_group w grp_name; Return (Some w')
              | None => Return None
              end;
      v ← call_weighted func (Frame res_grp) grp_w;
      s_data ← list_setitem s_data grp_name v;
      weighted_loop func weights groups' s_data
  end.

(** [_compute_weighted_stats(func, res_data, column_names, **kwargs)] *)
Definition _compute_weighted_stats (func : Callable) (res_data : frame)
    (column_names : option (list (string * list string)))
    (kwargs : option frame) : result Table :=
  let weights := kwargs in
  match column_names with
  | Some ((_ :: _) as column_names) =>
      let s_data := [] in
      s_data ← match res_data with
               | Grouped g => weighted_loop func weights g s_data
               | Frame df =>
                   match columns df with
                   | [] => Return s_data
                   | _ :: _ =>
                       Raise (TypeError "cannot unpack non-iterable int object")
                   end
               end;
      pd_DataFrame s_data (map fst column_names)
  | _ =>
      s_data ← call_weighted func res_data weights;
      Return [("weighted_mean"%string, s_data)]
  end.

(** [res_data.aggregate(func, **kwargs)]: one row of per-site values for
    a plain frame (a Series), one row per group for a grouped one. *)
Definition aggregate (res_data : frame) (func : Callable) : list (list F) :=
  match res_data with
  | Frame df => [map (call_column func) (columns df)]
  | Grouped g => map (fun kd => map (call_column func) (columns kd.2)) g
  end.

(** [s_data = s_data.T; s_data.columns = columns] *)
Definition set_columns (rows : list (list F)) (names : list string)
  : result Table :=
  if (length rows =? length names)%nat then Return (zip names rows)
  else Raise (ValueError "Length mismatch").

(** [s_data.to_frame(name=name)] *)
Definition to_frame (rows : list (list F)) (name : string) : result Table :=
  match rows with
  | [series] => Return [(name, series)]
  | _ => Raise (AttributeError "to_frame")
  end.

(** [pd.concat(res_stats, axis=1)] *)
Definition pd_concat (res_stats : list Table) : result Table :=
  match res_stats with
  | [] => Raise (ValueError "No objects to concatenate")
  | _ => Return (concat res_stats)
  end.

(** [TemporalStats._compute_stats(res_data, statistics, diurnal, month,
    weights)] *)
Definition _compute_stats (res_data : DataFrame)
    (statistics : list (string * Stat)) (diurnal month : bool)
    (weights : option frame) : result Table :=
  let groupby :=
    (if month then [map ts_month (index res_data)] else [])
    ++ (if diurnal then [map ts_hour (index res_data)] else []) in
  '(res_data, column_names) ←
    match groupby with
    | _ :: _ =>
        let res_data := pd_groupby res_data groupby in
        _ ← match weights with
            | Some _ => Raise (AttributeError "groupyby")
            | None => Return ()
            end;
        column_names ← _create_names (map fst res_data) (map fst statistics);
        Return (Grouped res_data, Some column_names)
    | [] => Return (Frame res_data, None)
    end;
  res_stats ←
    mapM (fun '(name, stat) =>
            let func := func stat in
            let kwargs := default None (kwargs stat) in
            if String.prefix "weight" (lower name) then
              _compute_weighted_stats func res_data column_names kwargs
            else
              let s_data := aggregate res_data func in
              match groupby with
              | _ :: _ =>
                  columns ← match column_names ≫= dict_get name with
                            | Some c => Return c
                            | None => Raise KeyError
                            end;
                  set_columns s_data columns
              | [] => to_frame s_data name
              end)
         statistics;
  pd_concat res_stats.

End stats.

(** [TemporalStats._create_index]: the local [idx] is assigned on two of
    the three paths only. *)
Definition _create_index (sites_slice : selector) : result selector :=
  idx ← match sites_slice with
        | SSlice start stop step =>
            if truthy stop then
              '(a, b, c) ← slice_indices start stop step (default 0 stop);
              Return (Some (SList (range a b c)))
            else Return None
        | SList l => Return (Some (SList l))
        | SArray l => Return (Some (SArray l))
        | SInt _ => Return None
        end;
  read_local "idx" idx.

End TemporalStats.

(** ** multi_res_resource.py *)

Module MultiRes.

(** [os.path.split(ds)[1]]: what follows the last slash. *)
Fixpoint basename_from (acc s : string) : string :=
  match s with
  | EmptyString => acc
  | String c s' =>
      if Ascii.eqb c "/" then basename_from EmptyString s'
      else basename_from (acc +:+ String c EmptyString) s'
  end.

Definition basename (s : string) : string := basename_from EmptyString s.

(** [sub in s] on strings *)
Fixpoint contains (sub s : string) : bool :=
  if String.prefix sub s then true
  else match s with
       | EmptyString => false
       | String _ s' => contains sub s'
       end.

Fixpoint index_of (t : Z) (l : list Z) : option nat :=
  match l with
  | [] => None
  | x :: l' => if decide (x = t) then Some 0%nat else S <$> index_of t l'
  end.

(** [a[i]] on a numpy array with an integer: negative positions count from
    the end. *)
Definition np_item (a : list Z) (i : Z) : result Z :=
  let n := Z.of_nat (length a) in
  if (- n <=? i) && (i <? n)
  then match a !! Z.to_nat (if i <? 0 then i + n else i) with
       | Some x => Return x
       | None => Raise IndexError
       end
  else Raise IndexError.

(** [nn_map[s_slice]] *)
Definition np_getitem (a : list Z) (s : selector) : result selector :=
  match s with
  | SInt i => x ← np_item a i; Return (SInt x)
  | SSlice start stop step =>
      '(b, e, st) ← slice_indices start stop step (Z.of_nat (length a));
      l ← mapM (np_item a) (range b e st);
      Return (SArray l)
  | SList l | SArray l => l' ← mapM (np_item a) l; Return (SArray l')
  end.

(** *** Attribute values *)

(** [out[k] = v] on a dict: an existing key keeps its place. *)
Fixpoint dict_setitem (k : atom) (v : pyval) (d : list (atom * pyval))
  : list (atom * pyval) :=
  match d with
  | [] => [(k, v)]
  | (k', v') :: d' =>
      if decide (k' = k) then (k, v) :: d' else (k', v') :: dict_setitem k v d'
  end.

(** [out.update(other)] *)
Definition dict_update (out other : list (atom * pyval)) : list (atom * pyval) :=
  foldl (fun out kv => dict_setitem kv.1 kv.2 out) out other.

Fixpoint dict_lookup (k : atom) (d : list (atom * pyval)) : option pyval :=
  match d with
  | [] => None
  | (k', v) :: d' => if decide (k' = k) then Some v else dict_lookup k d'
  end.

(** [copy.deepcopy] of an immutable model value. *)
Definition deepcopy (v : list (atom * pyval)) : list (atom * pyval) := v.

(** [list(set(l))]: the distinct elements, in the order of the set. *)
Definition list_set (l : list atom) : list atom :=
  elements (list_to_set l : gset atom).

(** [len], [>=], [+] and subscription on the values the attribute
    delegation can hand back; an opaque object does not reach them. *)
Definition py_len (v : pyval) : result Z :=
  match v with
  | VList l | VTuple l => Return (Z.of_nat (length l))
  | VDict d => Return (Z.of_nat (length d))
  | VAtom (AStr s) => Return (Z.of_nat (String.length s))
  | _ => Raise (TypeError "object has no len()")
  end.

(** [a >= n] with [n] an int *)
Definition py_ge (a : pyval) (n : Z) : result bool :=
  match a with
  | VAtom (AInt z) => Return (n <=? z)
  | _ => Raise (TypeError "'>=' not supported")
  end.

(** [a + n] with [n] an int, for the counter update *)
Definition py_add (a : pyval) (n : Z) : result Z :=
  match a with
  | VAtom (AInt z) => Return (z + n)
  | _ => Raise (TypeError "unsupported operand type(s) for +=")
  end.

(** [seq[i]] *)
Definition py_getitem (v i : pyval) : result pyval :=
  match v, i with
  | VList l, VAtom (AInt i) | VTuple l, VAtom (AInt i) =>
      let n := Z.of_nat (length l) in
      if (- n <=? i) && (i <? n)
      then match l !! Z.to_nat (if i <? 0 then i + n else i) with
           | Some x => Return (VAtom x)
           | None => Raise IndexError
           end
      else Raise IndexError
  | VDict d, VAtom k =>
      match dict_lookup k d with
      | Some x => Return x
      | None => Raise KeyError
      end
  | _, _ => Raise (TypeError "bad subscript")
  end.

Definition HR_ATTRS : list string :=
  ["meta"; "time_index"; "coordinates"; "lat_lon"; "data_version";
   "global_attrs"; "get_meta_arr"].

(** The names [dir] reports for every instance: the attributes [__init__]
    sets, the names the class body defines, and those of [object]. *)
Definition instance_attrs : list string :=
  ["_hr_res"; "_lr_res"; "_nn_map"; "_nn_d"].

Definition class_attrs : list string :=
  ["HR_ATTRS"; "__init__"; "make_nn_map"; "map_ds_slice"; "time_interp";
   "__repr__"; "__enter__"; "__exit__"; "__len__"; "__getitem__";
   "__iter__"; "__next__"; "__contains__"; "__getattr__"; "_preload_SAM";
   "__class__"; "__delattr__"; "__dict__"; "__dir__"; "__doc__"; "__eq__";
   "__format__"; "__ge__"; "__getattribute__"; "__getstate__"; "__gt__";
   "__hash__"; "__init_subclass__"; "__le__"; "__lt__"; "__module__";
   "__ne__"; "__new__"; "__reduce__"; "__reduce_ex__"; "__setattr__";
   "__sizeof__"; "__str__"; "__subclasshook__"; "__weakref__"].

(** The three prefix tests [__getitem__] makes before every other
    branch. *)
Definition hr_pseudo (ds_name : string) : bool :=
  String.prefix "time_index" ds_name || String.prefix "meta" ds_name
  || String.prefix "coordinates" ds_name.

(** The pairs of values the [isinstance] tests of [__getattr__] accept. *)
Definition mergeable (h l : pyval) : bool :=
  match h, l with
  | VList _, VList _ | VTuple _, VTuple _ | VDict _, VDict _ => true
  | _, _ => false
  end.

Section composite.
(** Samples are floats; [None] is NaN. *)
Context {V : Type}.

(** [lerp a b k n]: the value numpy's linear interpolation gives [k]
    steps out of [n] from [a] towards [b]. *)
Variable lerp : V -> V -> nat -> nat -> V.

(** A site column of a (time, sites) array. *)
Local Abbreviation column := (list (option V)).

(** What an indexing operation returns: a (time, sites) array, stored
    as the list of its site columns, or some other object. *)
Inductive data :=
  | DArray (cols : list column)
  | DOther (v : pyval).

(** The resource handler, an external collaborator: its class, its
    attributes by name, and the members the composite uses directly. *)
Record Handler := {
  h_class : string;
  h_getattr : string -> option pyval;
  resource_datasets : list string;
  time_index : list Z;
  _get_time_index : string -> list selector -> result data;
  _get_meta : string -> list selector -> result data;
  _get_coords : string -> list selector -> result data;
  _get_ds : string -> list selector -> result data;
}.

(** [KDTree(lr_res.coordinates).query(hr_res.coordinates)] *)
Variable kdtree_query : Handler -> Handler -> list V * list Z.

(** Calling an object that is not a list, tuple, dict, scalar or None. *)
Variable call_obj : string -> list selector -> result data.

Record MultiResolutionResource := {
  _hr_res : Handler;
  _lr_res : Handler;
  _nn_map : list Z;
  _nn_d : option (list V);
  _i : option Z;  (* the instance attribute [_i], absent until assigned *)
}.

Definition make_nn_map (hr_res lr_res : Handler) : list V * list Z :=
  kdtree_query hr_res lr_res.

Definition __init__ (hr_res lr_res : Handler) (nn_map : option (list Z))
    (nn_d : option (list V)) : result MultiResolutionResource :=
  if decide (h_class hr_res = h_class lr_res) then
    match nn_map with
    | Some m =>
        Return {| _hr_res := hr_res; _lr_res := lr_res;
                  _nn_map := m; _nn_d := nn_d; _i := None |}
    | None =>
        let '(d, m) := make_nn_map hr_res lr_res in
        Return {| _hr_res := hr_res; _lr_res := lr_res;
                  _nn_map := m; _nn_d := Some d; _i := None |}
    end
  else Raise AssertionError.

Definition set_i (self : MultiResolutionResource) (i : Z)
  : MultiResolutionResource :=
  {| _hr_res := _hr_res self; _lr_res := _lr_res self;
     _nn_map := _nn_map self; _nn_d := _nn_d self; _i := Some i |}.

(** [dir(self)] *)
Definition dir (self : MultiResolutionResource) : list string :=
  match _i self with
  | Some _ => ["_i"]
  | None => []
  end ++ instance_attrs ++ class_attrs.

(** Ordinary attribute lookup, in the instance and in the class. *)
Definition lookup (self : MultiResolutionResource) (attr : string)
  : option pyval :=
  if decide (attr = "_i") then (fun i => VAtom (AInt i)) <$> _i self
  else if decide (attr = "HR_ATTRS") then Some (VTuple (AStr <$> HR_ATTRS))
  else if decide (attr ∈ instance_attrs ++ class_attrs) then Some (VObj attr)
  else None.

(** [getattr(handler, attr)] *)
Definition h_get (h : Handler) (attr : string) : result pyval :=
  match h_getattr h attr with
  | Some v => Return v
  | None => Raise (AttributeError attr)
  end.

(** The [except Exception] clause of [__getattr__]: the message reads the
    locals [hr_attr] and [lr_attr], whether or not the [try] block
    assigned them. *)
Definition except_clause (attr : string) (hr_attr lr_attr : option pyval)
  : exn :=
  match read_local "hr_attr" hr_attr with
  | Raise e => e
  | Return h =>
      match read_local "lr_attr" lr_attr with
      | Raise e => e
      | Return l => RuntimeError (MsgCombine attr h l)
      end
  end.

(** The three [isinstance] branches; falling off the end returns None. *)
Definition combine (hr_attr lr_attr : pyval) : result pyval :=
  match hr_attr, lr_attr with
  | VList h, VList l => Return (VList (list_set (h ++ l)))
  | VTuple h, VTuple l => Return (VTuple (h ++ l))
  | VDict h, VDict l => Return (VDict (dict_update (deepcopy l) h))
  | _, _ => Return VNone
  end.

Definition __getattr__ (self : MultiResolutionResource) (attr : string)
  : result pyval :=
  if decide (attr ∈ dir self) then
    match lookup self attr with
    | Some v => Return v
    | None => Raise (AttributeError attr)
    end
  else if decide (attr ∈ HR_ATTRS) then h_get (_hr_res self) attr
  else
    match h_get (_hr_res self) attr with
    | Raise _ => Raise (except_clause attr None None)
    | Return hr_attr =>
        match h_get (_lr_res self) attr with
        | Raise _ => Raise (except_clause attr (Some hr_attr) None)
        | Return lr_attr =>
            match combine hr_attr lr_attr with
            | Raise _ =>
                Raise (except_clause attr (Some hr_attr) (Some lr_attr))
            | Return v => Return v
            end
        end
    end.

(** [self.attr]: ordinary lookup, then [__getattr__]. *)
Definition getattr (self : MultiResolutionResource) (attr : string)
  : result pyval :=
  match lookup self attr with
  | Some v => Return v
  | None => __getattr__ self attr
  end.

Definition py_call (f : pyval) (args : list selector) : result data :=
  match f with
  | VObj name => call_obj name args
  | _ => Raise (TypeError "object is not callable")
  end.

(** *** Temporal interpolation *)

(** [arr.reindex(hr_index)] on one column: the sample of each target
    label, NaN where the label does not occur in the source index. *)
Definition reindex (lr_index hr_index : list Z) (c : column) : column :=
  map (fun t => match index_of t lr_index with
                | Some j => default None (c !! j)
                | None => None
                end)
      hr_index.

(** The length of the leading run of NaN and the sample that ends it. *)
Fixpoint next_valid (c : column) : option (nat * V) :=
  match c with
  | [] => None
  | Some v :: _ => Some (0%nat, v)
  | None :: c' => (fun p => (S p.1, p.2)) <$> next_valid c'
  end.

(** [interpolate('linear')] after a valid sample [prev] that lies [k]
    rows back: a gap between two valid samples is filled at equal
    spacing by row position, a trailing gap repeats the last valid
    sample. *)
Fixpoint interpolate_after (prev : V) (k : nat) (c : column) : column :=
  match c with
  | [] => []
  | Some v :: c' => Some v :: interpolate_after v 0 c'
  | None :: c' =>
      Some (match next_valid c' with
            | Some (m, next) => lerp prev next (S k) (S k + S m)
            | None => prev
            end)
      :: interpolate_after prev (S k) c'
  end.

(** Leading NaN are left in place. *)
Fixpoint interpolate (c : column) : column :=
  match c with
  | [] => []
  | None :: c' => None :: interpolate c'
  | Some v :: c' => Some v :: interpolate_after v 0 c'
  end.

Fixpoint ffill_from (prev : option V) (c : column) : column :=
  match c with
  | [] => []
  | x :: c' =>
      let y := match x with Some v => Some v | None => prev end in
      y :: ffill_from y c'
  end.

Definition ffill (c : column) : column := ffill_from None c.

Fixpoint bfill (c : column) : column :=
  match c with
  | [] => []
  | x :: c' =>
      let r := bfill c' in
      match x with
      | Some v => Some v
      | None => mjoin (head r)
      end :: r
  end.

(** The chain [interpolate('linear').ffill().bfill()] on one column. *)
Definition fill (c : column) : column := bfill (ffill (interpolate c)).

(** [MultiResolutionResource.time_interp] *)
Definition time_interp (self : MultiResolutionResource) (arr : data)
  : result data :=
  let lr_index := time_index (_lr_res self) in
  let hr_index := time_index (_hr_res self) in
  match arr with
  | DOther _ => Raise (ValueError "DataFrame constructor not properly called!")
  | DArray cols =>
      (* pd.DataFrame(arr, index=lr_index) *)
      if negb (forallb (fun c => (length c =? length lr_index)%nat) cols)
      then Raise (ValueError "Shape of passed values does not match the index")
      else
        (* arr.reindex(hr_index): equal indices need no unique labels *)
        if negb (bool_decide (hr_index = lr_index))
           && negb (bool_decide (NoDup lr_index))
        then Raise (ValueError "cannot reindex on an axis with duplicate labels")
        else
          Return (DArray (map (fun c =>
                                 fill (if bool_decide (hr_index = lr_index)
                                       then c
                                       else reindex lr_index hr_index c))
                              cols))
  end.

(** *** Slicing *)

(** [MultiResolutionResource.map_ds_slice] *)
Definition map_ds_slice (self : MultiResolutionResource)
    (ds_slice : list selector) : result (list selector) :=
  ds_slice ← (if (length ds_slice =? 1)%nat then Return (ds_slice ++ [slice_all])
              else if (2 <? length ds_slice)%nat
                   then Raise (ResourceRuntimeError "Cannot handle ds_slice > 2D")
                   else Return ds_slice);
  match ds_slice with
  | [t_slice; s_slice] =>
      s_slice ← np_getitem (_nn_map self) s_slice;
      Return [t_slice; s_slice]
  | _ => Raise (ValueError "not enough values to unpack")
  end.

Definition is_int (s : selector) : bool :=
  match s with
  | SInt _ => true
  | _ => false
  end.

(** [MultiResolutionResource.__getitem__] on a parsed key: [ds] and
    [ds_slice] are what [parse_keys] returns.  The local [out] is
    assigned by the branch that is taken, if any. *)
Definition __getitem__ (self : MultiResolutionResource) (ds : string)
    (ds_slice : list selector) : result data :=
  let ds_name := basename ds in
  out ←
    (if String.prefix "time_index" ds_name then
       out ← _get_time_index (_hr_res self) ds ds_slice; Return (Some out)
     else if String.prefix "meta" ds_name then
       out ← _get_meta (_hr_res self) ds ds_slice; Return (Some out)
     else if String.prefix "coordinates" ds_name then
       out ← _get_coords (_hr_res self) ds ds_slice; Return (Some out)
     else if contains "SAM" ds_name then
       match ds_slice with
       | [] => Raise IndexError
       | site :: _ =>
           if is_int site then
             get_SAM_df ← getattr self "get_SAM_df";
             out ← py_call get_SAM_df [site];
             Return (Some out)
           else
             Raise (ResourceRuntimeError
                      "Can only extract SAM DataFrame for a single site")
       end
     else if bool_decide (ds_name ∈ resource_datasets (_hr_res self)) then
       out ← _get_ds (_hr_res self) ds ds_slice; Return (Some out)
     else if bool_decide (ds_name ∈ resource_datasets (_lr_res self)) then
       ds_slice ← map_ds_slice self ds_slice;
       out ← _get_ds (_lr_res self) ds ds_slice;
       out ← time_interp self out;
       Return (Some out)
     else Return None);
  read_local "out" out.

(** *** Iteration *)

(** [MultiResolutionResource.__next__]: the object after the call and
    what the call returned or raised. *)
Definition __next__ (self : MultiResolutionResource)
  : MultiResolutionResource * result pyval :=
  match (i ← getattr self "_i";
         datasets ← getattr self "datasets";
         n ← py_len datasets;
         py_ge i n) with
  | Raise e => (self, Raise e)
  | Return true => (set_i self 0, Raise StopIteration)
  | Return false =>
      match (datasets ← getattr self "datasets";
             i ← getattr self "_i";
             py_getitem datasets i) with
      | Raise e => (self, Raise e)
      | Return dset =>
          match (i ← getattr self "_i"; py_add i 1) with
          | Raise e => (self, Raise e)
          | Return i' => (set_i self i', Return dset)
          end
      end
  end.

(** [MultiResolutionResource.__contains__] *)
Definition __contains__ (self : MultiResolutionResource) (dset : atom)
  : result bool :=
  datasets ← getattr self "datasets";
  match datasets with
  | VList l | VTuple l => Return (bool_decide (dset ∈ l))
  | VDict d => Return (bool_decide (is_Some (dict_lookup dset d)))
  | _ => Raise (TypeError "argument is not iterable")
  end.

End composite.

End MultiRes.

(** ** IEEE binary32 arithmetic

    The arithmetic of numpy's [float32], from the Standard Library's
    reference implementation of IEEE 754, and the elementary functions
    to the nearest [float32]; an implementation of these functions may
    return the float next to the nearest one ([nudged_ops] below).
    [np.radians(data, dtype=np.float32)] puts the degrees path of
    [weighted_circular_mean] into this arithmetic. *)

Module Float32.
Import Py Np.

Definition prec : Z := 24.
Definition emax : Z := 128.

Definition add : spec_float -> spec_float -> spec_float := SFadd prec emax.
Definition mul : spec_float -> spec_float -> spec_float := SFmul prec emax.
Definition div : spec_float -> spec_float -> spec_float := SFdiv prec emax.
Definition ltb : spec_float -> spec_float -> bool := SFltb.

(** [m * 2^e], rounded to the nearest float, ties to even. *)
Definition round (m e : Z) : spec_float := binary_normalize prec emax m e false.

Definition of_Z (z : Z) : spec_float := round z 0.

Definition is_nan (x : spec_float) : bool :=
  match x with
  | S754_nan => true
  | _ => false
  end.

Definition sign_of (x : spec_float) : bool :=
  match x with
  | S754_zero s | S754_infinity s | S754_finite s _ _ => s
  | S754_nan => false
  end.

(** *** Elementary functions

    Each is computed in fixed point, an integer [r] standing for
    [r / 2^k], with more than a hundred bits beyond the result's, and
    rounded once. *)

(** The integer part of [pi * 2^512]. *)
Definition PI_512 : Z :=
  42121870893450636219446821484559388105255997313489254605594685088103805782276098919793885372247726346443771296916333485327292916625599161542353774203832599.

(** The integer part of [pi * 2^k], for [k <= 512]. *)
Definition pi_at (k : Z) : Z := Z.shiftr PI_512 (512 - k).

(** [acc + t - t r^2/((i+1)(i+2)) + ...], [n] terms; [r2] is [r^2]. *)
Fixpoint alternating (n : nat) (i term r2 K acc : Z) : Z :=
  match n with
  | O => acc
  | S n =>
      alternating n (i + 2)
        (Z.quot (- term * r2) (K * ((i + 1) * (i + 2)))) r2 K (acc + term)
  end.

Definition sin_fix (r K : Z) : Z := alternating 40 1 r (Z.quot (r * r) K) K 0.
Definition cos_fix (r K : Z) : Z := alternating 40 0 K (Z.quot (r * r) K) K 0.

(** The representative of [x] modulo [2 pi] nearest to zero. *)
Definition reduce (x k : Z) : Z :=
  let twopi := pi_at (k + 1) in
  x - twopi * ((2 * x + twopi) / (2 * twopi)).

Definition fixed (s : bool) (m : positive) (e k : Z) : Z :=
  cond_Zopp s (Z.shiftl (Zpos m) (e + k)).

Definition sin (x : spec_float) : spec_float :=
  match x with
  | S754_finite s m e =>
      let k := 230 - Z.min e 0 in
      round (sin_fix (reduce (fixed s m e k) k) (2 ^ k)) (- k)
  | S754_zero _ => x
  | S754_infinity _ | S754_nan => S754_nan
  end.

Definition cos (x : spec_float) : spec_float :=
  match x with
  | S754_finite s m e =>
      let k := 230 - Z.min e 0 in
      round (cos_fix (reduce (fixed s m e k) k) (2 ^ k)) (- k)
  | S754_zero _ => of_Z 1
  | S754_infinity _ | S754_nan => S754_nan
  end.

(** [acc + p - p z^2/3 + ...]: the series of the arctangent. *)
Fixpoint atan_series (n : nat) (i power z2 K acc : Z) : Z :=
  match n with
  | O => acc
  | S n =>
      atan_series n (i + 2) (Z.quot (- power * z2) K) z2 K
        (acc + Z.quot power i)
  end.

(** The arctangent of [z / K] for [0 <= z <= K], after two halvings of
    the angle. *)
Definition atan_fix (z K : Z) : Z :=
  let half z := Z.quot (z * K) (K + Z.sqrt (K * K + z * z)) in
  let z := half (half z) in
  4 * atan_series 60 1 z (Z.quot (z * z) K) K 0.

Definition with_sign (s : bool) (x : spec_float) : spec_float :=
  if s then SFopp x else x.

(** [atan2(y, x)], with the special cases of C's Annex F. *)
Definition arctan2 (y x : spec_float) : spec_float :=
  let pi_times (n : Z) := round (n * pi_at 100) (- 102) in
  match y, x with
  | S754_nan, _ | _, S754_nan => S754_nan
  | S754_finite sy my ey, S754_finite sx mx ex =>
      let lq := (Z.log2 (Zpos my) + ey) - (Z.log2 (Zpos mx) + ex) in
      let k := 130 - Z.min lq 0 in
      let K := 2 ^ k in
      let num := Zpos my * 2 ^ Z.max (ey - ex) 0 in
      let den := Zpos mx * 2 ^ Z.max (ex - ey) 0 in
      let a := if num <=? den then atan_fix (num * K / den) K
               else pi_at (k - 1) - atan_fix (den * K / num) K in
      round (cond_Zopp sy (if sx then pi_at k - a else a)) (- k)
  | S754_zero sy, _ =>
      if sign_of x then with_sign sy (pi_times 4) else S754_zero sy
  | S754_finite sy _ _, S754_zero _ => with_sign sy (pi_times 2)
  | S754_finite sy _ _, S754_infinity sx =>
      if sx then with_sign sy (pi_times 4) else S754_zero sy
  | S754_infinity sy, S754_infinity sx =>
      with_sign sy (pi_times (if sx then 3 else 1))
  | S754_infinity sy, _ => with_sign sy (pi_times 2)
  end.

Fixpoint exp_series (n : nat) (i term r K acc : Z) : Z :=
  match n with
  | O => acc
  | S n => exp_series n (i + 1) (Z.quot (term * r) (K * i)) r K (acc + term)
  end.

Fixpoint squarings (n : nat) (x K : Z) : Z :=
  match n with
  | O => x
  | S n => squarings n (Z.quot (x * x) K) K
  end.

Definition exp (x : spec_float) : spec_float :=
  match x with
  | S754_nan => S754_nan
  | S754_infinity s => if s then S754_zero false else x
  | S754_zero _ => of_Z 1
  | S754_finite s m e =>
      if 8 <=? Z.log2 (Zpos m) + e then
        if s then S754_zero false else S754_infinity false
      else
        let k := 300 in
        let K := 2 ^ k in
        let r := Z.quot (fixed s m e k) (2 ^ 9) in
        round (squarings 9 (exp_series 60 1 K r K 0) K) (- k)
  end.

(** [npy_deg2radf] and [npy_rad2degf]: products with the constants
    [NPY_PIf / 180.0f] and [180.0f / NPY_PIf]. *)
Definition NPY_PIf : spec_float := round (pi_at 100) (- 100).
Definition radians (x : spec_float) : spec_float :=
  mul x (div NPY_PIf (of_Z 180)).
Definition degrees (x : spec_float) : spec_float :=
  mul x (div (of_Z 180) NPY_PIf).

#[global] Instance float32_ops : FloatOps spec_float := {|
  f_of_Z := of_Z;
  f_add := add;
  f_mul := mul;
  f_div := div;
  f_exp := exp;
  f_sin := sin;
  f_cos := cos;
  f_arctan2 := arctan2;
  f_radians := radians;
  f_degrees := degrees;
  f_ltb := ltb;
|}.

(** The float next to [x] on the side of [n], for an implementation that
    misses the nearest float by one unit in the last place. *)
Definition nudge (n : Z) (x : spec_float) : spec_float :=
  match n with
  | 0 => x
  | Zpos _ => SFsucc prec emax x
  | Zneg _ => SFpred prec emax x
  end.

Definition nudged_ops (o_sin o_cos : spec_float -> Z) (o_arctan2 : Z)
  : FloatOps spec_float := {|
  f_of_Z := of_Z;
  f_add := add;
  f_mul := mul;
  f_div := div;
  f_exp := exp;
  f_sin := fun x => nudge (o_sin x) (sin x);
  f_cos := fun x => nudge (o_cos x) (cos x);
  f_arctan2 := fun y x => nudge o_arctan2 (arctan2 y x);
  f_radians := radians;
  f_degrees := degrees;
  f_ltb := ltb;
|}.

(** [np.nanmean(a, axis=0)] of a (time, sites) array: the NaN of a site
    count as 0 in the sum of its samples, which is divided by the number
    of the others; a site with NaN only gives 0/0. *)
Definition nanmean_of (samples : list spec_float) : spec_float :=
  let valid := List.filter (fun x => negb (is_nan x)) samples in
  let zeroed := map (fun x => if is_nan x then S754_zero false else x) samples in
  div (foldl add (hd (S754_zero false) zeroed) (tl zeroed))
      (of_Z (Z.of_nat (length valid))).

Definition float32_nanmean (a : ndarray spec_float) (axis : Z)
  : result (ndarray spec_float) :=
  match shape a, axis with
  | [t; n], 0 =>
      Return (Ndarray dt_float [n]
                (map (fun j =>
                        nanmean_of
                          (map (fun i => nth (i * n + j) (flat a) S754_nan)
                               (seq 0 t)))
                     (seq 0 n)))
  | _, _ => Raise (ValueError "axis out of bounds")
  end.

End Float32.

(** ** temporal_stats.py, continued *)

Module TemporalStatsRest.
Import TemporalStats.

(** The largest entry of a grouper array, [arr.max()]. *)
Definition max_of (l : list Z) : Z := foldl Z.max (hd 0 l) (tl l).

(** The text [_format_grp_names] writes for the value [k] of a key
    component whose largest value is [mx], where the formatter returns. *)
Definition grp_label (mx k : Z) : string :=
  match (if mx <=? 12 then fmt_month k
         else if mx <=? 23 then fmt_hour k else fmt_year k) with
  | Return s => s
  | Raise _ => EmptyString
  end.

Definition group_label (maxes key : list Z) : string :=
  join "-" (zip_with grp_label maxes key).

(** The arrays [_compute_stats] groups by. *)
Definition groupers (idx : list Timestamp) (diurnal month : bool)
  : list (list Z) :=
  (if month then [map ts_month idx] else [])
  ++ (if diurnal then [map ts_hour idx] else []).

(** *** The worker

    [_extract_stats] from the point where the data have been read: the
    frame [res_data] is what [f[dataset, :, sites_slice]] gave, and
    [statistics] is the request after the loop that replaces the names of
    weights datasets by their frames.  [set_index] stands for the two
    assignments to [res_stats.index], which pandas performs or refuses. *)
Section worker.
Context {F T : Type}.
Variable set_index : Table (F:=F) -> selector -> result T.


End worker.

(** *** The statistics request

    [_check_stats] receives a name, a tuple or list of names, or a dict
    from names to entries; an entry is a dict that may hold a ['func'] and
    a ['kwargs'], and the latter may be a dict or something else. *)
Section request.
Context {F : Type}.

Inductive raw_kwargs :=
  | KwDict (weights : option (option (frame (F:=F))))
  | KwOther.

Record entry := {
  e_func : option (Callable (F:=F));
  e_kwargs : option raw_kwargs;
}.

Inductive request :=
  | RStr (s : string)
  | RNames (l : list string)
  | RDict (d : list (string * entry)).

(** [np.nanmean], [np.nanmedian] and [np.nanstd], with [axis=0]. *)
Variables np_nanmean np_nanmedian np_nanstd : Callable (F:=F).

Definition STATS : list (string * entry) :=
  [("mean", {| e_func := Some np_nanmean; e_kwargs := Some (KwDict None) |});
   ("median", {| e_func := Some np_nanmedian; e_kwargs := Some (KwDict None) |});
   ("std", {| e_func := Some np_nanstd; e_kwargs := Some (KwDict None) |})].

(** [d[k] = v] on a dict with string keys: a key that is present keeps
    its place. *)
Fixpoint dict_set {A} (k : string) (v : A) (d : list (string * A))
  : list (string * A) :=
  match d with
  | [] => [(k, v)]
  | (k', v') :: d' =>
      if decide (k' = k) then (k, v) :: d' else (k', v') :: dict_set k v d'
  end.

(** [{s: self.STATS[s] for s in statistics}] *)
Fixpoint stats_of_names (statistics : list string) (d : list (string * entry))
  : result (list (string * entry)) :=
  match statistics with
  | [] => Return d
  | s :: statistics' =>
      match dict_get s STATS with
      | Some v => stats_of_names statistics' (dict_set s v d)
      | None => Raise KeyError
      end
  end.

(** The body of the loop over [statistics.values()]. *)
Definition check_entry (stat : entry) : result unit :=
  match e_func stat with
  | None => Raise AssertionError
  | Some _ =>
      match e_kwargs stat with
      | Some KwOther => Raise AssertionError
      | Some (KwDict _) | None => Return ()
      end
  end.

(** [TemporalStats._check_stats(statistics)] *)
Definition _check_stats (statistics : request)
  : result (list (string * entry)) :=
  let statistics :=
    match statistics with
    | RStr s => RNames [s]
    | _ => statistics
    end in
  statistics ←
    match statistics with
    | RNames l => stats_of_names l []
    | RDict d => Return d
    | RStr _ => Raise (AttributeError "values")
    end;
  _ ← mapM (fun kv : string * entry => check_entry kv.2) statistics;
  Return statistics.

End request.

(** *** Writing the table *)

(** [p.rfind(c)] *)
Fixpoint rfind (c : ascii) (p : string) : Z :=
  match p with
  | EmptyString => -1
  | String a p' =>
      let r := rfind c p' in
      if 0 <=? r then r + 1 else if Ascii.eqb a c then 0 else -1
  end.

(** [p[i:j]] for [0 <= i], [0 <= j] *)
Definition py_slice (p : string) (i j : Z) : string :=
  substring (Z.to_nat i) (Z.to_nat (j - i)) p.

Fixpoint string_forallb (f : ascii -> bool) (s : string) : bool :=
  match s with
  | EmptyString => true
  | String a s' => f a && string_forallb f s'
  end.

(** [os.path.splitext(p)[0]]: the extension starts at the last dot of the
    last path component, unless only dots precede it there. *)
Definition splitext_root (p : string) : string :=
  let sepIndex := rfind "/" p in
  let dotIndex := rfind "." p in
  if (sepIndex <? dotIndex)
     && negb (string_forallb (fun a => Ascii.eqb a ".")
                (py_slice p (sepIndex + 1) dotIndex))
  then py_slice p 0 dotIndex
  else p.

Definition startswith (s pre : string) : bool := String.prefix pre s.

Definition endswith (s suffix : string) : bool :=
  let n := String.length s in
  let m := String.length suffix in
  (m <=? n)%nat && String.eqb (substring (n - m) m s) suffix.

(** [os.path.join(a, b)] *)
Definition path_join (a b : string) : string :=
  if startswith b "/" then b
  else if String.eqb a EmptyString || endswith a "/" then a +:+ b
  else a +:+ "/" +:+ b.

(** [s.replace(c, '')] for a single character [c] *)
Fixpoint remove_char (c : ascii) (s : string) : string :=
  match s with
  | EmptyString => EmptyString
  | String a s' =>
      if Ascii.eqb a c then remove_char c s' else String a (remove_char c s')
  end.

(** The writes [save_stats] asks of the table: [res_stats.to_csv(path)]
    and [res_stats.to_json(path)]. *)
Inductive write :=
  | to_csv (out_fpath : string)
  | to_json (out_fpath : string).

(** [TemporalStats.save_stats(res_stats, out_path)].  [isdir] is the
    state of the file system as [os.path.isdir] reports it, and [perform]
    is what becomes of a write: it returns nothing, or it raises (a
    directory that does not exist, a file that cannot be written).  The
    result is the list of the writes asked for and what the call returns
    or raises. *)
Section save.
Variable isdir : string -> bool.
Variable perform : write -> result unit.

Definition save_stats (res_h5 out_path : string)
  : list write * result unit :=
  let out_fpath :=
    if isdir out_path then
      let out_fpath := splitext_root (MultiRes.basename res_h5) in
      path_join out_path (out_fpath +:+ ".csv")
    else out_path in
  let out_fpath := remove_char "*" out_fpath in
  if endswith out_fpath ".csv"
  then ([to_csv out_fpath], perform (to_csv out_fpath))
  else if endswith out_fpath ".json"
  then ([to_json out_fpath], perform (to_json out_fpath))
  else
    ([],
     Raise (OSError ("Cannot save statistics, expecting a directory, .csv, or "
                     +:+ ".json path, but got: " +:+ out_path))).

End save.

End TemporalStatsRest.

(** ** multi_res_resource.py, continued *)

Module MultiResRest.
Import MultiRes.

Section composite_rest.
Context {V : Type}.

(** The handlers' own [_preload_SAM(sites, ...)], with the arguments after
    the site list fixed. *)
Variable h_preload_SAM : @Handler V -> list Z -> result (@data V).

(** [MultiResolutionResource._preload_SAM(hr_sites, ...)]: the bundle of
    the high-resolution handler is what is returned; the low-resolution
    one is computed for the mapped sites and dropped. *)
Definition _preload_SAM (self : @MultiResolutionResource V)
    (hr_sites : list Z) : result (@data V) :=
  hr_sam ← h_preload_SAM (_hr_res self) hr_sites;
  lr_sites ← mapM (np_item (_nn_map self)) hr_sites;
  lr_sam ← h_preload_SAM (_lr_res self) lr_sites;
  Return hr_sam.

(** [list(self)], the loop a [for] statement runs: [__iter__] returns the
    object itself, [__next__] is called until it raises StopIteration, and
    any other exception ends the loop with that exception.  [None] means
    that [fuel] calls were not enough. *)
Fixpoint iterate (fuel : nat) (self : @MultiResolutionResource V)
    (acc : list pyval)
  : option (@MultiResolutionResource V * result (list pyval)) :=
  match fuel with
  | O => None
  | S fuel =>
      match __next__ self with
      | (self, Return dset) => iterate fuel self (acc ++ [dset])
      | (self, Raise StopIteration) => Some (self, Return acc)
      | (self, Raise e) => Some (self, Raise e)
      end
  end.

End composite_rest.

End MultiResRest.

(** ** Concrete instances

    Inputs on which the definitions are run in the examples below. *)

Module Examples.
Import TemporalStats MultiRes.

(** Exact rational arithmetic, with rational stand-ins for the
    transcendental functions: an interpretation on which the definitions
    run. *)
Definition rational_ops : FloatOps Q := {|
  f_of_Z := inject_Z;
  f_add := Qplus;
  f_mul := Qmult;
  f_div := Qdiv;
  f_exp := fun x => (1 + x)%Q;
  f_sin := fun x => x;
  f_cos := fun x => (1 - x * x / 2)%Q;
  f_arctan2 := fun y x => (y / x)%Q;
  f_radians := fun x => (x * (355 # 113) / 180)%Q;
  f_degrees := fun x => (x * 180 / (355 # 113))%Q;
  f_ltb := fun x y => negb (Qle_bool y x);
|}.

(** The mean of the columns of a (time, sites) array, for [axis=0]. *)
Definition rational_nanmean (a : ndarray Q) (axis : Z) : result (ndarray Q) :=
  match shape a with
  | [t; n] =>
      Return (Ndarray dt_float [n]
                (map (fun j =>
                        (foldr Qplus 0%Q
                           (map (fun i => nth (i * n + j) (flat a) 0%Q) (seq 0 t))
                         / inject_Z (Z.of_nat t))%Q)
                     (seq 0 n)))
  | _ => Raise (ValueError "axis out of bounds")
  end.

(** The (time, sites) array of a frame, in row-major order. *)
Definition frame_array (df : DataFrame (F:=Q)) : ndarray Q :=
  Ndarray dt_float [length (index df); length (columns df)]
    (concat (map (fun i => map (fun col => nth i col 0%Q) (columns df))
                 (seq 0 (length (index df))))).

(** [weighted_circular_mean] as a statistic: called on a frame with the
    [weights] keyword, or by [aggregate] on the columns. *)
Definition circular_mean : Callable (F:=Q) := {|
  call_weighted := fun data weights =>
    match data, weights with
    | Frame d, None =>
        flat <$> (weighted_circular_mean (ops:=rational_ops) rational_nanmean
                    (frame_array d) None true 0 true true).2
    | Frame d, Some (Frame w) =>
        flat <$> (weighted_circular_mean (ops:=rational_ops) rational_nanmean
                    (frame_array d) (Some (frame_array w)) true 0 true true).2
    | _, _ => Raise (AttributeError "shape")
    end;
  call_column := fun col =>
    Qred (foldr Qplus 0%Q col / inject_Z (Z.of_nat (length col)))%Q;
|}.

Definition stamp (m d h : Z) : Timestamp :=
  {| ts_year := 2010; ts_month := m; ts_day := d; ts_hour := h;
     ts_minute := 0 |}.

(** Two sites, four time steps: two in January, two in July. *)
Definition winddirection : DataFrame (F:=Q) := {|
  index := [stamp 1 1 0; stamp 1 1 13; stamp 7 1 0; stamp 7 1 13];
  columns := [[0; 90; 180; 270]%Q; [10; 20; 30; 40]%Q];
|}.

Definition windspeed : DataFrame (F:=Q) := {|
  index := index winddirection;
  columns := [[1; 1; 1; 1]%Q; [2; 4; 6; 8]%Q];
|}.

(** The request [_extract_stats] hands on: the weights dataset has been
    replaced by its frame. *)
Definition weighted_request : list (string * Stat) :=
  [("weighted_mean", {| func := circular_mean;
                        kwargs := Some (Some (Frame windspeed)) |})].

(** *** A concrete pair of handlers

    The high-resolution handler has four half-hourly time steps and two
    sites; the low-resolution one has a single site sampled at the
    quarter hours 15 and 75, so that the two time indices share no label. *)

Definition lerp_Q (a b : Q) (k n : nat) : Q :=
  Qred (a + (b - a) * (Z.of_nat k # Pos.of_nat n))%Q.

Definition no_call (name : string) (args : list selector) : result (@data Q) :=
  Raise (TypeError "object is not callable").

Definition nearest_first (hr lr : @Handler Q) : list Q * list Z :=
  ([0%Q; 0%Q], [0; 0]).

Definition wind_attrs (dsets : list string) (attr : string) : option pyval :=
  if decide (attr = "datasets") then Some (VList (AStr <$> dsets))
  else if decide (attr = "shape") then Some (VTuple [AInt 4; AInt 2])
  else if decide (attr = "units") then
    Some (VDict ((fun d => (AStr d, VAtom (AStr "m s-1"))) <$> dsets))
  else if decide (attr = "meta") then Some (VObj "meta")
  else if decide (attr = "get_SAM_df") then Some (VObj "get_SAM_df")
  else if decide (attr = "_i") then Some (VAtom (AInt 0))
  else None.

Definition hr_res : @Handler Q := {|
  h_class := "WindResource";
  h_getattr := wind_attrs ["time_index"; "meta"; "windspeed_100m"];
  resource_datasets := ["windspeed_100m"];
  time_index := [0; 30; 60; 90];
  _get_time_index := fun _ _ => Return (DOther (VObj "time_index"));
  _get_meta := fun _ _ => Return (DOther (VObj "meta"));
  _get_coords := fun _ _ => Return (DOther (VObj "coordinates"));
  _get_ds := fun _ _ =>
    Return (DArray [[Some 1%Q; Some 2%Q; Some 3%Q; Some 4%Q];
                    [Some 5%Q; Some 6%Q; Some 7%Q; Some 8%Q]]);
|}.

Definition lr_res : @Handler Q := {|
  h_class := "WindResource";
  h_getattr := wind_attrs ["time_index"; "meta"; "temperature_100m"];
  resource_datasets := ["temperature_100m"];
  time_index := [15; 75];
  _get_time_index := fun _ _ => Return (DOther (VObj "time_index"));
  _get_meta := fun _ _ => Return (DOther (VObj "meta"));
  _get_coords := fun _ _ => Return (DOther (VObj "coordinates"));
  _get_ds := fun _ sl =>
    match sl with
    | [_; SArray l] => Return (DArray ((fun _ => [Some 10%Q; Some 20%Q]) <$> l))
    | _ => Return (DArray [[Some 10%Q; Some 20%Q]])
    end;
|}.

Definition mrr : MultiResolutionResource := {|
  _hr_res := hr_res;
  _lr_res := lr_res;
  _nn_map := [0; 0];
  _nn_d := None;
  _i := None;
|}.

(** A low-resolution handler whose [datasets] is a tuple. *)
Definition lr_tuple : @Handler Q := {|
  h_class := "WindResource";
  h_getattr := fun attr =>
    if decide (attr = "datasets") then Some (VTuple [AStr "temperature_100m"])
    else wind_attrs ["temperature_100m"] attr;
  resource_datasets := ["temperature_100m"];
  time_index := [15; 75];
  _get_time_index := _get_time_index lr_res;
  _get_meta := _get_meta lr_res;
  _get_coords := _get_coords lr_res;
  _get_ds := _get_ds lr_res;
|}.

Definition mrr_tuple : MultiResolutionResource := {|
  _hr_res := hr_res;
  _lr_res := lr_tuple;
  _nn_map := [0; 0];
  _nn_d := None;
  _i := None;
|}.

(** A low-resolution handler that shares the labels 0 and 60 with the
    high-resolution time index. *)
Definition lr_hourly : @Handler Q := {|
  h_class := "WindResource";
  h_getattr := h_getattr lr_res;
  resource_datasets := ["temperature_100m"];
  time_index := [0; 60];
  _get_time_index := _get_time_index lr_res;
  _get_meta := _get_meta lr_res;
  _get_coords := _get_coords lr_res;
  _get_ds := _get_ds lr_res;
|}.

Definition mrr_hourly : MultiResolutionResource := {|
  _hr_res := hr_res;
  _lr_res := lr_hourly;
  _nn_map := [0; 0];
  _nn_d := None;
  _i := None;
|}.


(** *** Directions in float32

    One site with the directions 350 and 10, and weights 1 for both. *)
Definition directions_350_10 : ndarray spec_float :=
  Ndarray dt_float [2; 1]%nat [Float32.of_Z 350; Float32.of_Z 10].



(** Whether the mean direction of [directions_350_10] is returned as 360
    by every implementation of sine, cosine and arctangent that gives the
    nearest float32 or one of its two neighbours, at each of the five
    evaluations. *)
Definition returns_360_for_all_roundings : bool :=
  let offsets := [-1; 0; 1] in
  let at_350 a b (x : spec_float) :=
    if SFeqb x (Float32.radians (Float32.of_Z 350)) then a else b in
  forallb (fun a => forallb (fun b => forallb (fun c => forallb (fun d =>
  forallb (fun e =>
    match (weighted_circular_mean
             (ops:=Float32.nudged_ops (at_350 a b) (at_350 c d) e)
             Float32.float32_nanmean directions_350_10 None
             true 0 true true).2 with
    | Return r =>
        match flat r with
        | [v] => SFeqb v (Float32.of_Z 360)
        | _ => false
        end
    | Raise _ => false
    end) offsets) offsets) offsets) offsets) offsets.



(** *** A file system

    The directories that exist, one of them with a wildcard character in
    its name; a write succeeds when the file lies directly in one of
    them. *)
Definition directories : list string := ["/out"; "/out/st*r"].

Definition is_directory (p : string) : bool := bool_decide (p ∈ directories).

Definition write_file (w : TemporalStatsRest.write) : result unit :=
  let p := match w with
           | TemporalStatsRest.to_csv p | TemporalStatsRest.to_json p => p
           end in
  if existsb (fun d =>
                String.prefix (d +:+ "/") p
                && negb (contains "/"
                           (substring (String.length d + 1) (String.length p) p)))
       directories
  then Return ()
  else Raise (OSError "Cannot save file into a non-existent directory").

End Examples.

(** Closed decidable facts, such as membership of a name in a list of
    names, are settled by evaluation. *)
Ltac by_computation :=
  first [ apply (proj1 (bool_decide_eq_true _))
        | apply (proj1 (bool_decide_eq_false _)) ];
  vm_compute; reflexivity.


(** * Properties *)
Module TemporalStatsFacts.
Import TemporalStats Examples.

Lemma raises_bind {A B} (c : result A) (k : A -> result B) :
  raises c -> raises (c ≫= k).
Proof. intros [e ->]. by exists e. Qed.

Lemma raises_bind_all {A B} (c : result A) (k : A -> result B) :
  (forall a, raises (k a)) -> raises (c ≫= k).
Proof. intros Hk. destruct c as [a|e]; [apply Hk | by exists e]. Qed.

(** A traversal raises as soon as one of its elements does. *)
Lemma mapM_raises {A B} (f : A -> result B) (l : list A) x :
  x ∈ l -> raises (f x) -> raises (mapM f l).
Proof.
  intros Hin Hx. induction l as [|y l IH]; [by apply elem_of_nil in Hin|].
  apply elem_of_cons in Hin as [<-|Hin]; cbn.
  - by apply raises_bind.
  - apply raises_bind_all; intros b. apply raises_bind. auto.
Qed.

Lemma slice_indices_returns start stop step n :
  returns (slice_indices start stop step n) <-> 0 <= n /\ step <> Some 0.
Proof.
  unfold slice_indices, returns.
  destruct (Z.ltb_spec n 0).
  { split; [intros [? ?]; discriminate | lia]. }
  destruct step as [st|]; cbn.
  - destruct (Z.eqb_spec st 0) as [->|Hst].
    + split; [intros [? ?]; discriminate | intros [_ ?]; congruence].
    + split; [intros _; split; [lia | congruence] | eauto].
  - split; [intros _; split; [lia | congruence] | eauto].
Qed.

(** C10: which selectors [_create_index] is defined on, and what it
    returns there.  A list or array selector is returned as it is; a slice
    whose stop is neither None nor zero yields
    [list(range( *slice.indices(stop)))]; a slice whose stop is None, or
    zero, leaves [idx] unassigned, and so does an integer.  The call
    returns exactly for lists, arrays, and slices with a positive stop and
    a non-zero step. *)
Theorem create_index_cases :
  (forall l, _create_index (SList l) = Return (SList l))
  /\ (forall l, _create_index (SArray l) = Return (SArray l))
  /\ (forall start stop step,
        stop <> 0 ->
        _create_index (SSlice start (Some stop) step)
        = '(a, b, c) ← slice_indices start (Some stop) step stop;
          Return (SList (range a b c)))
  /\ (forall start step,
        _create_index (SSlice start None step) = Raise (UnboundLocalError "idx"))
  /\ (forall start step,
        _create_index (SSlice start (Some 0) step) = Raise (UnboundLocalError "idx"))
  /\ (forall sel,
        returns (_create_index sel)
        <-> match sel with
            | SList _ | SArray _ => True
            | SSlice _ (Some stop) step => 0 < stop /\ step <> Some 0
            | _ => False
            end).
Proof.
  assert (Hslice : forall start stop step,
             stop <> 0 ->
             _create_index (SSlice start (Some stop) step)
             = '(a, b, c) ← slice_indices start (Some stop) step stop;
               Return (SList (range a b c))).
  { intros start stop step Hstop. unfold _create_index; cbn.
    destruct (Z.eqb_spec stop 0); [done|]; cbn.
    by destruct (slice_indices _ _ _ _) as [[[a b] c]|e]. }
  repeat split; try done.
  - intros [r Hr]. destruct sel as [i|start [stop|] step|l|l]; try done.
    destruct (Z.eq_dec stop 0) as [->|Hstop]; [done|].
    rewrite Hslice in Hr by done.
    destruct (slice_indices start (Some stop) step stop) eqn:Hs; [|done].
    assert (returns (slice_indices start (Some stop) step stop)) as Hret
      by (rewrite Hs; by eexists).
    apply slice_indices_returns in Hret as [? ?]. split; [lia | done].
  - destruct sel as [i|start [stop|] step|l|l]; try done; [|by eexists..].
    intros [Hpos Hstep]. rewrite Hslice by lia.
    destruct (proj2 (slice_indices_returns start (Some stop) step stop))
      as [[[a b] c] ->]; [split; [lia|done]|].
    by eexists.
Qed.

(** The default site selector of [_extract_stats] is [slice(None)]. *)
Example create_index_default_selector :
  _create_index slice_all = Raise (UnboundLocalError "idx").
Proof. reflexivity. Qed.

Example create_index_slice :
  _create_index (SSlice (Some 10) (Some 14) None)
  = Return (SList [10; 11; 12; 13]).
Proof. reflexivity. Qed.

Lemma create_index_cases_witness :
  5 <> 0
  /\ _create_index (SSlice (Some 2) (Some 5) None) = Return (SList [2; 3; 4])
  /\ returns (_create_index (SSlice (Some 2) (Some 5) None)).
Proof.
  split; [lia|]. split.
  - exact (proj1 (proj2 (proj2 create_index_cases)) (Some 2) 5 None ltac:(lia)).
  - apply (proj2 (proj2 (proj2 (proj2 (proj2 create_index_cases))))
             (SSlice (Some 2) (Some 5) None)).
    split; [lia | discriminate].
Defined.

(** C4: when the weights' shape differs from the data's,
    [weighted_circular_mean] returns no value, but the error is the
    RuntimeError that carries both shapes only if the transformations of
    the weights get through: a caller that asks for normalised,
    non-exponential weights and passes an integer or boolean array meets
    the TypeError of the in-place division instead, and a caller that
    passes a float array finds it divided by its sum. *)
Theorem weighted_circular_mean_shape_mismatch {F} {ops : FloatOps F}
    (np_nanmean : ndarray F -> Z -> result (ndarray F))
    (data weights : ndarray F) (degrees : bool) (axis : Z)
    (norm_weights exponential_weights : bool) :
  shape data <> shape weights ->
  let call := weighted_circular_mean np_nanmean data (Some weights) degrees
                axis norm_weights exponential_weights in
  ~ returns call.2
  /\ call
     = if norm_weights && negb exponential_weights
       then match dtype_of weights with
            | dt_float =>
                (Some (np_map (fun x => f_div x (np_sum weights)) weights),
                 Raise (RuntimeError
                          (MsgShapes (shape weights) (shape data))))
            | dt_int | dt_bool =>
                (Some weights,
                 Raise (TypeError "Cannot cast ufunc 'divide' output"))
            end
       else (Some weights,
             Raise (RuntimeError (MsgShapes (shape weights) (shape data)))).
Proof.
  intros Hshape call.
  assert (call
          = if norm_weights && negb exponential_weights
            then match dtype_of weights with
                 | dt_float =>
                     (Some (np_map (fun x => f_div x (np_sum weights)) weights),
                      Raise (RuntimeError
                               (MsgShapes (shape weights) (shape data))))
                 | dt_int | dt_bool =>
                     (Some weights,
                      Raise (TypeError "Cannot cast ufunc 'divide' output"))
                 end
            else (Some weights,
                  Raise (RuntimeError (MsgShapes (shape weights) (shape data)))))
    as E.
  { subst call. unfold weighted_circular_mean. rewrite decide_True by done.
    destruct exponential_weights, norm_weights; cbn; try done.
    unfold np_idiv. by destruct (dtype_of weights). }
  split; [|done]. rewrite E. intros [a Ha].
  destruct (norm_weights && negb exponential_weights);
    [destruct (dtype_of weights)|]; discriminate.
Qed.

(** The integer weights [1, 2, 3] against data of shape (2, 2), with
    [norm_weights=True] and [exponential_weights=False]. *)
Lemma weighted_circular_mean_shape_mismatch_witness :
  let data := Ndarray dt_float [2; 2]%nat [0; 90; 180; 270]%Q in
  let weights := Ndarray dt_int [3]%nat [1; 2; 3]%Q in
  shape data <> shape weights
  /\ weighted_circular_mean (ops:=rational_ops) rational_nanmean data
       (Some weights) true 0 true false
     = (Some weights, Raise (TypeError "Cannot cast ufunc 'divide' output")).
Proof.
  intros data weights.
  assert (shape data <> shape weights) as Hne by (cbn; discriminate).
  split; [exact Hne|].
  exact (proj2 (weighted_circular_mean_shape_mismatch (ops:=rational_ops)
                  rational_nanmean data weights true 0 true false Hne)).
Defined.

(** With the defaults the exponential makes a float array first, and the
    mismatch is reported; float weights are reported for every flag. *)
Example weighted_circular_mean_mismatch_defaults :
  (weighted_circular_mean (ops:=rational_ops) rational_nanmean
     (Ndarray dt_float [2; 2]%nat [0; 90; 180; 270]%Q)
     (Some (Ndarray dt_int [3]%nat [1; 2; 3]%Q)) true 0 true true).2
  = Raise (RuntimeError (MsgShapes [3]%nat [2; 2]%nat)).
Proof. reflexivity. Qed.

(** With equal shapes the same call goes on to the mean. *)
Example weighted_circular_mean_same_shape :
  returns (weighted_circular_mean (ops:=rational_ops) rational_nanmean
             (Ndarray dt_float [2; 2]%nat [0; 90; 180; 270]%Q)
             (Some (Ndarray dt_float [2; 2]%nat [1; 1; 1; 1]%Q))
             true 0 true true).2.
Proof. eexists. vm_compute. reflexivity. Qed.

(** The steps of the degrees path, for any float primitives: the mean
    direction [m] of a site is returned as it is unless it is negative,
    and as the float sum [m + 360] when it is. *)
Lemma circular_mean_of_degrees {F} {ops : FloatOps F}
    (np_nanmean : ndarray F -> Z -> result (ndarray F))
    (data : ndarray F) (weights : operand) (axis : Z) :
  circular_mean_of np_nanmean data weights true axis
  = (sin ← np_nanmean (np_times (np_sin (np_radians data)) weights) axis;
     cos ← np_nanmean (np_times (np_cos (np_radians data)) weights) axis;
     Return (np_map (fun m => if f_ltb m (f_of_Z 0)
                              then f_add m (f_of_Z 360) else m)
               (np_degrees (np_arctan2 sin cos)))).
Proof. reflexivity. Qed.


(** The outcome does not hang on the last place of numpy's sine, cosine
    and arctangent. *)
Example circular_mean_reaches_360_any_rounding :
  returns_360_for_all_roundings = true.
Proof. vm_compute. reflexivity. Qed.

(** The all-NaN site: its mean direction is NaN, which no comparison
    places in any range. *)
Example circular_mean_all_nan :
  (weighted_circular_mean Float32.float32_nanmean
     (Ndarray dt_float [2; 1]%nat [S754_nan; S754_nan]) None true 0 true true).2
  = Return (Ndarray dt_float [1]%nat [S754_nan]).
Proof. vm_compute. reflexivity. Qed.

Section grouped_weighted.
Context {F : Type}.

Lemma create_names_no_group stats : raises (_create_names [] stats).
Proof. by eexists. Qed.

Lemma list_setitem_empty {A} (key : list Z) (v : A) :
  raises (list_setitem [] key v).
Proof.
  destruct key as [|k [|k' key]]; try by eexists.
  unfold list_setitem. cbn [length]. change (- Z.of_nat 0) with 0.
  change (Z.of_nat 0) with 0.
  destruct (Z.leb_spec 0 k), (Z.ltb_spec k 0); cbn; try by eexists.
  lia.
Qed.

(** The loop body writes [s_data[grp_name]] into the empty list. *)
Lemma weighted_loop_raises (func : Callable (F:=F)) weights g gs :
  raises (weighted_loop func weights (g :: gs) []).
Proof.
  destruct g as [grp_name res_grp]; cbn.
  apply raises_bind_all; intros grp_w.
  apply raises_bind_all; intros v.
  apply raises_bind, list_setitem_empty.
Qed.

Lemma compute_weighted_stats_grouped_raises (func : Callable (F:=F))
    g gs n ns kwargs :
  raises (_compute_weighted_stats func (Grouped (g :: gs)) (Some (n :: ns))
            kwargs).
Proof. apply raises_bind, weighted_loop_raises. Qed.

(** C1: with month or diurnal grouping on, a statistics request that
    holds a name with the weighted prefix never yields a table:
    [_compute_stats] raises. *)
Theorem compute_stats_grouped_weighted_raises (res_data : DataFrame (F:=F))
    (statistics : list (string * Stat)) (diurnal month : bool)
    (weights : option frame) (name : string) (stat : Stat) :
  month || diurnal = true ->
  (name, stat) ∈ statistics ->
  String.prefix "weight" (lower name) = true ->
  raises (_compute_stats res_data statistics diurnal month weights).
Proof.
  intros Hgrp Hin Hname. unfold _compute_stats.
  set (groupby := _ ++ _).
  assert (exists k ks, groupby = k :: ks) as (k & ks & ->).
  { subst groupby. destruct month; [by eexists _, _|].
    destruct diurnal; [by eexists _, _ | done]. }
  destruct weights as [w|]; [by eexists|]. cbn.
  destruct (pd_groupby res_data (k :: ks)) as [|g gs] eqn:Hg.
  { apply raises_bind, raises_bind, create_names_no_group. }
  destruct (_create_names _ _) as [column_names|e] eqn:Hcn; [|by eexists].
  cbn. apply raises_bind.
  assert (exists n ns, column_names = n :: ns) as (n & ns & ->).
  { unfold _create_names in Hcn.
    destruct (_format_grp_names _); [|done]. cbn in Hcn.
    injection Hcn as <-. destruct statistics; [by apply elem_of_nil in Hin|].
    by eexists _, _. }
  apply (mapM_raises _ _ (name, stat)); [done|]. cbn. rewrite Hname.
  apply compute_weighted_stats_grouped_raises.
Qed.
End grouped_weighted.

Lemma compute_stats_grouped_weighted_raises_witness :
  true || false = true
  /\ String.prefix "weight" (lower "weighted_mean") = true
  /\ raises (_compute_stats winddirection weighted_request false true None).
Proof.
  split; [reflexivity|]. split; [reflexivity|].
  apply (compute_stats_grouped_weighted_raises winddirection weighted_request
           false true None "weighted_mean"
           {| func := circular_mean; kwargs := Some (Some (Frame windspeed)) |}).
  - reflexivity.
  - apply list_elem_of_singleton. reflexivity.
  - reflexivity.
Defined.

(** The month grouping of the request fails on the weights frame, which has
    no [get_group]; without grouping the same request is served. *)
Example compute_stats_monthly_weighted :
  _compute_stats winddirection weighted_request false true None
  = Raise (AttributeError "get_group").
Proof. reflexivity. Qed.

Example compute_stats_ungrouped_weighted :
  exists s_data,
    _compute_stats winddirection weighted_request false false None
    = Return [("weighted_mean", s_data)].
Proof. eexists. vm_compute. reflexivity. Qed.

(** Without weights the loop reaches the assignment into the empty
    list. *)
Example compute_stats_monthly_unweighted :
  _compute_stats winddirection
    [("weighted_mean", {| func := circular_mean; kwargs := None |})]
    false true None
  = Raise IndexError.
Proof. vm_compute. reflexivity. Qed.

(** Plain statistics are aggregated group by group. *)
Example compute_stats_monthly_mean :
  _compute_stats winddirection
    [("mean", {| func := circular_mean; kwargs := None |})] false true None
  = Return [("Jan_mean", [45; 15]%Q); ("Jul_mean", [225; 35]%Q)].
Proof. vm_compute. reflexivity. Qed.

End TemporalStatsFacts.

Module MultiResFacts.
Import MultiRes Examples.

Example mrr_init :
  __init__ nearest_first hr_res lr_res (Some [0; 0]) None = Return mrr.
Proof. reflexivity. Qed.

Section getitem_facts.
Context {V : Type} (lerp : V -> V -> nat -> nat -> V).
Context (call_obj : string -> list selector -> result (@data V)).

Implicit Types (self : @MultiResolutionResource V) (ds : string)
  (ds_slice : list selector).

Lemma hr_pseudo_false ds_name :
  hr_pseudo ds_name = false ->
  String.prefix "time_index" ds_name = false
  /\ String.prefix "meta" ds_name = false
  /\ String.prefix "coordinates" ds_name = false.
Proof.
  unfold hr_pseudo. intros H.
  apply orb_false_iff in H as [H ?]. apply orb_false_iff in H as [? ?].
  done.
Qed.

(** C9: a dataset name that no branch of [__getitem__] recognises leaves
    [out] unassigned: the call raises the unbound-local error and returns
    nothing. *)
Theorem getitem_unknown_dataset self ds ds_slice :
  hr_pseudo (basename ds) = false ->
  contains "SAM" (basename ds) = false ->
  basename ds ∉ resource_datasets (_hr_res self) ->
  basename ds ∉ resource_datasets (_lr_res self) ->
  __getitem__ lerp call_obj self ds ds_slice = Raise (UnboundLocalError "out")
  /\ ~ returns (__getitem__ lerp call_obj self ds ds_slice).
Proof.
  intros (Ht & Hm & Hc)%hr_pseudo_false Hsam Hhr Hlr.
  assert (__getitem__ lerp call_obj self ds ds_slice
          = Raise (UnboundLocalError "out")) as E.
  { unfold __getitem__. rewrite Ht, Hm, Hc, Hsam.
    by rewrite !bool_decide_eq_false_2. }
  split; [done|]. rewrite E. intros [a Ha]. discriminate.
Qed.

(** What the attribute delegation can hand back for a name that the
    composite does not define and that is not reserved for the
    high-resolution handler: never a callable. *)
Lemma combine_not_callable (h l v : pyval) name :
  combine h l = Return v -> v <> VObj name.
Proof.
  intros E ->. destruct h, l; discriminate E.
Qed.

Lemma getattr_get_SAM_df self v name :
  getattr self "get_SAM_df" = Return v -> v <> VObj name.
Proof.
  unfold getattr, lookup.
  rewrite decide_False by done. rewrite decide_False by done.
  rewrite decide_False by by_computation.
  unfold __getattr__.
  rewrite decide_False by (unfold dir; destruct (_i self); by_computation).
  rewrite decide_False by by_computation.
  destruct (h_get _ _) as [h|]; [|done].
  destruct (h_get _ _) as [l|]; [|done].
  destruct (combine h l) eqn:E; [|done].
  intros [= <-]. by eapply combine_not_callable.
Qed.

(** C6, as the code has it: for a name that contains 'SAM' and does not
    begin with one of the three prefixes that are tested before it, every
    site selector that is no integer (a slice, a list, an array) raises
    the resource runtime error, and nothing is returned.  The site is what
    the code reads at the first place of the key. *)
Theorem getitem_SAM_requires_int self ds site rest :
  hr_pseudo (basename ds) = false ->
  contains "SAM" (basename ds) = true ->
  is_int site = false ->
  __getitem__ lerp call_obj self ds (site :: rest)
  = Raise (ResourceRuntimeError
             "Can only extract SAM DataFrame for a single site")
  /\ ~ returns (__getitem__ lerp call_obj self ds (site :: rest)).
Proof.
  intros (Ht & Hm & Hc)%hr_pseudo_false Hsam Hsite.
  assert (__getitem__ lerp call_obj self ds (site :: rest)
          = Raise (ResourceRuntimeError
                     "Can only extract SAM DataFrame for a single site")) as E.
  { unfold __getitem__. by rewrite Ht, Hm, Hc, Hsam, Hsite. }
  split; [done|]. rewrite E. intros [out Hout]. discriminate.
Qed.

(** With an integer the branch calls [self.get_SAM_df], which the class
    does not define: the delegation hands back nothing callable, and the
    read raises as well. *)
Lemma getitem_SAM_int_raises self ds i rest :
  hr_pseudo (basename ds) = false ->
  contains "SAM" (basename ds) = true ->
  raises (__getitem__ lerp call_obj self ds (SInt i :: rest)).
Proof.
  intros (Ht & Hm & Hc)%hr_pseudo_false Hsam. unfold __getitem__.
  rewrite Ht, Hm, Hc, Hsam. cbn -[getattr].
  destruct (getattr self "get_SAM_df") as [v|e] eqn:E; [|by eexists].
  cbn. destruct v; try by eexists.
  by destruct (getattr_get_SAM_df self (VObj name) name E).
Qed.

End getitem_facts.

(** C6 fails as stated: the name [meta_SAM] contains 'SAM', the selector
    is a slice, and the read is served by the high-resolution handler's
    meta reader, because the prefix tests come first. *)
Lemma getitem_SAM_behind_meta_prefix :
  contains "SAM" (basename "meta_SAM") = true
  /\ is_int slice_all = false
  /\ __getitem__ lerp_Q no_call mrr "meta_SAM" [slice_all]
     = Return (DOther (VObj "meta")).
Proof. repeat split; reflexivity. Qed.

Lemma getitem_SAM_requires_int_witness :
  hr_pseudo (basename "SAM") = false
  /\ contains "SAM" (basename "SAM") = true
  /\ is_int (SList [0; 1]) = false
  /\ __getitem__ lerp_Q no_call mrr "SAM" [SList [0; 1]]
     = Raise (ResourceRuntimeError
                "Can only extract SAM DataFrame for a single site").
Proof.
  split; [reflexivity|]. split; [reflexivity|]. split; [reflexivity|].
  exact (proj1 (getitem_SAM_requires_int lerp_Q no_call mrr "SAM"
                  (SList [0; 1]) [] eq_refl eq_refl eq_refl)).
Defined.

Lemma getitem_unknown_dataset_witness :
  hr_pseudo (basename "pressure_0m") = false
  /\ contains "SAM" (basename "pressure_0m") = false
  /\ (basename "pressure_0m" ∉ resource_datasets (_hr_res mrr))
  /\ (basename "pressure_0m" ∉ resource_datasets (_lr_res mrr))
  /\ __getitem__ lerp_Q no_call mrr "pressure_0m" [slice_all; SInt 0]
     = Raise (UnboundLocalError "out").
Proof.
  assert (basename "pressure_0m" ∉ resource_datasets (_hr_res mrr)) as Hhr
    by by_computation.
  assert (basename "pressure_0m" ∉ resource_datasets (_lr_res mrr)) as Hlr
    by by_computation.
  split_and!; [reflexivity | reflexivity | exact Hhr | exact Hlr |].
  exact (proj1 (getitem_unknown_dataset lerp_Q no_call mrr "pressure_0m"
                  [slice_all; SInt 0] eq_refl eq_refl Hhr Hlr)).
Defined.

(** *** Attribute delegation *)

Section getattr_facts.
Context {V : Type}.
Implicit Types (self : @MultiResolutionResource V) (attr : string).

Lemma list_set_spec (l : list atom) :
  NoDup (list_set l) /\ forall x, x ∈ list_set l <-> x ∈ l.
Proof.
  unfold list_set. split; [apply NoDup_elements|].
  intros x. by rewrite elem_of_elements, elem_of_list_to_set.
Qed.

Lemma dict_lookup_setitem k k' v d :
  dict_lookup k (dict_setitem k' v d)
  = if decide (k' = k) then Some v else dict_lookup k d.
Proof.
  induction d as [|[k0 v0] d IH]; cbn.
  - by destruct (decide (k' = k)).
  - destruct (decide (k0 = k')) as [->|Hne]; cbn.
    + by destruct (decide (k' = k)).
    + rewrite IH. destruct (decide (k0 = k)) as [->|?]; [|done].
      by rewrite decide_False.
Qed.

Lemma dict_lookup_absent k d : k ∉ d.*1 -> dict_lookup k d = None.
Proof.
  induction d as [|[k0 v0] d IH]; cbn; [done|].
  intros Hk. apply not_elem_of_cons in Hk as [? ?].
  rewrite decide_False by done. auto.
Qed.

(** [out.update(other)]: the keys of [other] take its values, the
    remaining keys keep theirs. *)
Lemma dict_lookup_update k out other :
  NoDup other.*1 ->
  dict_lookup k (dict_update out other)
  = match dict_lookup k other with
    | Some v => Some v
    | None => dict_lookup k out
    end.
Proof.
  unfold dict_update. revert out.
  induction other as [|[k0 v0] other IH]; intros out Hnd; cbn; [done|].
  apply NoDup_cons in Hnd as [Hk0 Hnd].
  rewrite IH by done. destruct (decide (k0 = k)) as [->|Hne].
  - rewrite dict_lookup_absent by done.
    by rewrite dict_lookup_setitem, decide_True.
  - by rewrite dict_lookup_setitem, decide_False.
Qed.

(** C3: for a name the composite does not define itself, a name of
    [HR_ATTRS] resolves on the high-resolution handler alone; otherwise
    two lists give the distinct elements of both, two tuples give the
    high-resolution tuple followed by the low-resolution one, and two
    dicts give the low-resolution dict updated with the high-resolution
    one, so that the high-resolution value stands for every key present
    in both. *)
Theorem getattr_delegation self attr :
  attr ∉ dir self ->
  (attr ∈ HR_ATTRS ->
     __getattr__ self attr = h_get (_hr_res self) attr)
  /\ (attr ∉ HR_ATTRS ->
      (forall h l,
          h_getattr (_hr_res self) attr = Some (VList h) ->
          h_getattr (_lr_res self) attr = Some (VList l) ->
          exists u, __getattr__ self attr = Return (VList u)
                    /\ NoDup u /\ forall x, x ∈ u <-> x ∈ h \/ x ∈ l)
      /\ (forall h l,
            h_getattr (_hr_res self) attr = Some (VTuple h) ->
            h_getattr (_lr_res self) attr = Some (VTuple l) ->
            __getattr__ self attr = Return (VTuple (h ++ l)))
      /\ (forall h l,
            h_getattr (_hr_res self) attr = Some (VDict h) ->
            h_getattr (_lr_res self) attr = Some (VDict l) ->
            NoDup h.*1 ->
            exists d, __getattr__ self attr = Return (VDict d)
                      /\ forall k, dict_lookup k d
                                   = match dict_lookup k h with
                                     | Some v => Some v
                                     | None => dict_lookup k l
                                     end)).
Proof.
  intros Hdir. unfold __getattr__. rewrite decide_False by done.
  split; [intros Hhr; by rewrite decide_True|].
  intros Hhr. rewrite decide_False by done. unfold h_get.
  repeat split.
  - intros h l -> ->. cbn. eexists; split; [done|].
    destruct (list_set_spec (h ++ l)) as [Hnd Hin]. split; [done|].
    intros x. by rewrite Hin, elem_of_app.
  - by intros h l -> ->.
  - intros h l -> -> Hnd. cbn. eexists; split; [done|].
    intros k. by apply dict_lookup_update.
Qed.

(** C5 does not hold of the code.  A name neither handler resolves
    raises the unbound-local error of the message's own formatting, and
    a name both resolve to values of different kinds returns None. *)
Theorem getattr_unresolved_or_unmergeable self attr :
  attr ∉ dir self ->
  attr ∉ HR_ATTRS ->
  (h_getattr (_hr_res self) attr = None ->
     __getattr__ self attr = Raise (UnboundLocalError "hr_attr"))
  /\ (forall h,
        h_getattr (_hr_res self) attr = Some h ->
        h_getattr (_lr_res self) attr = None ->
        __getattr__ self attr = Raise (UnboundLocalError "lr_attr"))
  /\ (forall h l,
        h_getattr (_hr_res self) attr = Some h ->
        h_getattr (_lr_res self) attr = Some l ->
        mergeable h l = false ->
        __getattr__ self attr = Return VNone).
Proof.
  intros Hdir Hhr. unfold __getattr__.
  rewrite !decide_False by done. unfold h_get. repeat split.
  - by intros ->.
  - by intros h -> ->.
  - intros h l -> -> Hm. by destruct h, l.
Qed.

End getattr_facts.

Lemma getattr_delegation_witness :
  ("meta" ∉ dir mrr)
  /\ __getattr__ mrr "meta" = Return (VObj "meta")
  /\ __getattr__ mrr "shape" = Return (VTuple [AInt 4; AInt 2; AInt 4; AInt 2])
  /\ (exists u, __getattr__ mrr "datasets" = Return (VList u)
                /\ NoDup u
                /\ forall x, x ∈ u
                     <-> x ∈ AStr <$> ["time_index"; "meta"; "windspeed_100m"]
                        \/ x ∈ AStr <$> ["time_index"; "meta"; "temperature_100m"])
  /\ (exists d, __getattr__ mrr "units" = Return (VDict d)
                /\ dict_lookup (AStr "meta") d = Some (VAtom (AStr "m s-1"))).
Proof.
  assert ("meta" ∉ dir mrr) as Hmeta by by_computation.
  assert ("shape" ∉ dir mrr) as Hshape by by_computation.
  assert ("datasets" ∉ dir mrr) as Hdsets by by_computation.
  assert ("units" ∉ dir mrr) as Hunits by by_computation.
  split_and!.
  - exact Hmeta.
  - exact (proj1 (getattr_delegation mrr "meta" Hmeta) ltac:(by_computation)).
  - exact (proj1 (proj2 (proj2 (getattr_delegation mrr "shape" Hshape)
                           ltac:(by_computation)))
             _ _ eq_refl eq_refl).
  - exact (proj1 (proj2 (getattr_delegation mrr "datasets" Hdsets)
                    ltac:(by_computation))
             _ _ eq_refl eq_refl).
  - destruct (proj2 (proj2 (proj2 (getattr_delegation mrr "units" Hunits)
                              ltac:(by_computation)))
                _ _ eq_refl eq_refl ltac:(by_computation)) as (d & Hd & Hk).
    exists d. split; [exact Hd|]. by rewrite Hk.
Defined.

Lemma getattr_unresolved_or_unmergeable_witness :
  ("foo" ∉ dir mrr_tuple)
  /\ ("foo" ∉ HR_ATTRS)
  /\ h_getattr hr_res "foo" = None
  /\ __getattr__ mrr_tuple "foo" = Raise (UnboundLocalError "hr_attr")
  /\ __getattr__ mrr_tuple "datasets" = Return VNone.
Proof.
  assert ("foo" ∉ dir mrr_tuple) as H1 by by_computation.
  assert ("foo" ∉ HR_ATTRS) as H2 by by_computation.
  assert ("datasets" ∉ dir mrr_tuple) as H3 by by_computation.
  assert ("datasets" ∉ HR_ATTRS) as H4 by by_computation.
  split_and!; [exact H1 | exact H2 | reflexivity | |].
  - exact (proj1 (getattr_unresolved_or_unmergeable mrr_tuple "foo" H1 H2)
             eq_refl).
  - exact (proj2 (proj2 (getattr_unresolved_or_unmergeable mrr_tuple
                           "datasets" H3 H4))
             _ _ eq_refl eq_refl eq_refl).
Defined.

(** *** Iteration *)

Section next_facts.
Context {V : Type}.
Context (kdtree_query : @Handler V -> @Handler V -> list V * list Z).
Implicit Types (self : @MultiResolutionResource V) (attr : string).

Lemma init_fresh hr lr nn_map nn_d self :
  __init__ kdtree_query hr lr nn_map nn_d = Return self -> _i self = None.
Proof.
  unfold __init__, make_nn_map. destruct (decide _); [|done].
  destruct nn_map; [by intros [= <-]|].
  destruct (kdtree_query hr lr). by intros [= <-].
Qed.

(** Attribute access never raises StopIteration. *)
Lemma getattr_not_stop self attr e :
  getattr self attr = Raise e -> e <> StopIteration.
Proof.
  unfold getattr. destruct (lookup self attr); [done|].
  unfold __getattr__. destruct (decide _).
  { destruct (lookup self attr); [done|]. by intros [= <-]. }
  unfold h_get. destruct (decide _).
  { destruct (h_getattr _ _); [done|]. by intros [= <-]. }
  destruct (h_getattr (_hr_res self) attr) as [h|]; [|by intros [= <-]].
  destruct (h_getattr (_lr_res self) attr) as [l|]; [|by intros [= <-]].
  destruct (combine h l) eqn:E; [done|]. by intros [= <-].
Qed.

(** Before [_i] is assigned, [self._i] goes through the delegation,
    which cannot produce a number. *)
Lemma getattr_i_fresh self v n :
  _i self = None -> getattr self "_i" = Return v ->
  exists e, py_ge v n = Raise e /\ e <> StopIteration.
Proof.
  intros Hi. unfold getattr, lookup. rewrite decide_True by done.
  rewrite Hi. cbn. unfold __getattr__.
  rewrite decide_False by (unfold dir; rewrite Hi; by_computation).
  rewrite decide_False by by_computation.
  unfold h_get.
  destruct (h_getattr (_hr_res self) "_i") as [h|]; [|done].
  destruct (h_getattr (_lr_res self) "_i") as [l|]; [|done].
  intros E. destruct h, l; cbn in E; injection E as <-; by eexists.
Qed.

(** C8 does not hold of the code: [__init__] never assigns [_i], so the
    first [__next__] on a freshly constructed composite raises, yields
    no dataset and leaves the object as it was.  The exception is not
    StopIteration. *)
Theorem next_fresh_raises hr lr nn_map nn_d self :
  __init__ kdtree_query hr lr nn_map nn_d = Return self ->
  exists e, __next__ self = (self, Raise e) /\ e <> StopIteration.
Proof.
  intros Hi%init_fresh. unfold __next__.
  destruct (getattr self "_i") as [v|e] eqn:Ev; cbn.
  - destruct (getattr self "datasets") as [d|e] eqn:Ed; cbn.
    + destruct (py_len d) as [n|e] eqn:En; cbn.
      * destruct (getattr_i_fresh self v n Hi Ev) as (e & -> & He).
        by exists e.
      * exists e. split; [done|].
        destruct d as [|[]| | | |]; cbn in En; by simplify_eq.
    + exists e. split; [done|]. by eapply getattr_not_stop.
  - exists e. split; [done|]. by eapply getattr_not_stop.
Qed.

(** With the counter in place the method does iterate: it yields the
    dataset at the counter and advances, and at the end it resets the
    counter and stops. *)
Lemma next_with_counter self (i : Z) (datasets : list atom) :
  _i self = Some i ->
  getattr self "datasets" = Return (VList datasets) ->
  0 <= i ->
  __next__ self
  = match datasets !! Z.to_nat i with
    | Some dset => (set_i self (i + 1), Return (VAtom dset))
    | None => (set_i self 0, Raise StopIteration)
    end.
Proof.
  intros Hi Hd Hpos. unfold __next__.
  assert (getattr self "_i" = Return (VAtom (AInt i))) as ->.
  { unfold getattr, lookup. rewrite decide_True by done. by rewrite Hi. }
  rewrite Hd. cbn.
  destruct (datasets !! Z.to_nat i) as [dset|] eqn:El.
  - apply lookup_lt_Some in El as Hlt.
    destruct (Z.leb_spec (Z.of_nat (length datasets)) i); [lia|].
    destruct (Z.leb_spec (- Z.of_nat (length datasets)) i); [|lia].
    destruct (Z.ltb_spec i (Z.of_nat (length datasets))); [|lia].
    destruct (Z.ltb_spec i 0); [lia|]. cbn. by rewrite El.
  - apply lookup_ge_None in El.
    destruct (Z.leb_spec (Z.of_nat (length datasets)) i); [done|lia].
Qed.

End next_facts.

Lemma next_fresh_raises_witness :
  __init__ nearest_first hr_res lr_res (Some [0; 0]) None = Return mrr
  /\ exists e, __next__ mrr = (mrr, Raise e) /\ e <> StopIteration.
Proof.
  split; [reflexivity|].
  exact (next_fresh_raises nearest_first hr_res lr_res (Some [0; 0]) None mrr
           eq_refl).
Defined.

Example next_fresh_type_error :
  __next__ mrr = (mrr, Raise (TypeError "'>=' not supported")).
Proof. reflexivity. Qed.

(** *** Temporal interpolation *)

Section interp_facts.
Context {V : Type} (lerp : V -> V -> nat -> nat -> V).
Implicit Types (c : list (option V)) (v : V).

Lemma interpolate_after_length prev k c :
  length (interpolate_after lerp prev k c) = length c.
Proof.
  revert prev k. induction c as [|[x|] c IH]; intros; cbn; by rewrite ?IH.
Qed.

Lemma interpolate_length c : length (interpolate lerp c) = length c.
Proof.
  induction c as [|[x|] c IH]; cbn;
    by rewrite ?IH, ?interpolate_after_length.
Qed.

Lemma ffill_from_length p c : length (ffill_from p c) = length c.
Proof. revert p. induction c as [|x c IH]; intros; cbn; by rewrite ?IH. Qed.

Lemma bfill_length c : length (bfill c) = length c.
Proof. induction c as [|x c IH]; cbn; by rewrite ?IH. Qed.



Lemma ffill_from_valid p c i v :
  c !! i = Some (Some v) -> ffill_from p c !! i = Some (Some v).
Proof.
  revert p i. induction c as [|x c IH]; intros p [|i]; cbn; try done.
  - by intros [= ->].
  - apply IH.
Qed.

Lemma bfill_valid c i v :
  c !! i = Some (Some v) -> bfill c !! i = Some (Some v).
Proof.
  revert i. induction c as [|x c IH]; intros [|i]; cbn; try done.
  - by intros [= ->].
  - apply IH.
Qed.

Lemma fill_length c : length (fill lerp c) = length c.
Proof.
  unfold fill, ffill.
  by rewrite bfill_length, ffill_from_length, interpolate_length.
Qed.





Lemma next_valid_gap m v (post : list (option V)) :
  next_valid (replicate m None ++ Some v :: post) = Some (m, v).
Proof. induction m as [|m IH]; cbn; [done|]. by rewrite IH. Qed.

(** Inside a gap of [m] rows between the valid samples [prev] and [next],
    row [i] of the gap receives the value [S i] steps out of [S m]: the
    spacing is by row, whatever the labels. *)
Lemma interpolate_after_gap prev k m next post i :
  (i < m)%nat ->
  interpolate_after lerp prev k (replicate m None ++ Some next :: post) !! i
  = Some (Some (lerp prev next (S (k + i)) (S (k + m)))).
Proof.
  revert k i. induction m as [|m IH]; intros k i Hi; [lia|].
  destruct i as [|i]; cbn.
  - rewrite next_valid_gap. do 3 f_equal; lia.
  - rewrite IH by lia. do 3 f_equal; lia.
Qed.

(** After the last valid sample the gap repeats it. *)
Lemma interpolate_after_trailing prev k m :
  interpolate_after lerp prev k (replicate m None) = replicate m (Some prev).
Proof.
  revert k. induction m as [|m IH]; intros k; cbn; [done|].
  rewrite IH. f_equal.
  assert (next_valid (replicate m (@None V)) = None) as ->; [|done].
  clear. induction m as [|m IH]; cbn; [done|]. by rewrite IH.
Qed.

Lemma interpolate_after_app prev k pre v c :
  exists pre', length pre' = length pre
    /\ interpolate_after lerp prev k (pre ++ Some v :: c)
       = pre' ++ Some v :: interpolate_after lerp v 0 c.
Proof.
  revert prev k. induction pre as [|[x|] pre IH]; intros prev k; cbn.
  - by exists [].
  - destruct (IH x 0%nat) as (pre' & Hl & ->).
    exists (Some x :: pre'). cbn. by rewrite Hl.
  - destruct (IH prev (S k)) as (pre' & Hl & ->).
    eexists (_ :: pre'). cbn. by rewrite Hl.
Qed.

Lemma interpolate_app pre v c :
  exists pre', length pre' = length pre
    /\ interpolate lerp (pre ++ Some v :: c)
       = pre' ++ Some v :: interpolate_after lerp v 0 c.
Proof.
  induction pre as [|[x|] pre IH]; cbn.
  - by exists [].
  - destruct (interpolate_after_app x 0 pre v c) as (pre' & Hl & ->).
    exists (Some x :: pre'). cbn. by rewrite Hl.
  - destruct IH as (pre' & Hl & ->).
    exists (None :: pre'). cbn. by rewrite Hl.
Qed.

(** [interpolate('linear')] between two valid samples that are [S m] rows
    apart. *)
Lemma interpolate_between pre a m b post i :
  (i < m)%nat ->
  interpolate lerp (pre ++ Some a :: replicate m None ++ Some b :: post)
    !! (length pre + S i)%nat
  = Some (Some (lerp a b (S i) (S m))).
Proof.
  intros Hi.
  destruct (interpolate_app pre a (replicate m None ++ Some b :: post))
    as (pre' & Hl & ->).
  rewrite lookup_app_r by lia. rewrite Hl.
  replace (length pre + S i - length pre)%nat with (S i) by lia. cbn.
  by rewrite interpolate_after_gap.
Qed.





Lemma reindex_length lr_index hr_index c :
  length (reindex lr_index hr_index c) = length hr_index.
Proof. unfold reindex. by rewrite length_map. Qed.



Implicit Types (self : @MultiResolutionResource V).

(** The site axis goes through the nearest-neighbour map; a key without
    a site selector reads every site. *)
Lemma map_ds_slice_sites self t_slice s_slice :
  map_ds_slice self [t_slice; s_slice]
  = s_slice' ← np_getitem (_nn_map self) s_slice; Return [t_slice; s_slice'].
Proof. reflexivity. Qed.

Lemma map_ds_slice_default self t_slice :
  map_ds_slice self [t_slice] = map_ds_slice self [t_slice; slice_all].
Proof. reflexivity. Qed.

Lemma np_getitem_site (nn_map : list Z) (gid : nat) (lr_gid : Z) :
  nn_map !! gid = Some lr_gid ->
  np_getitem nn_map (SInt (Z.of_nat gid)) = Return (SInt lr_gid).
Proof.
  intros Hg. apply lookup_lt_Some in Hg as Hlt. unfold np_getitem, np_item.
  destruct (Z.leb_spec (- Z.of_nat (length nn_map)) (Z.of_nat gid)); [|lia].
  destruct (Z.ltb_spec (Z.of_nat gid) (Z.of_nat (length nn_map))); [|lia].
  destruct (Z.ltb_spec (Z.of_nat gid) 0); [lia|]. cbn.
  by rewrite Nat2Z.id, Hg.
Qed.

(** On an array that fits the low-resolution index, [time_interp] reindexes
    and fills each site column. *)
Lemma forallb_length_eq (cols : list (list (option V))) (n : nat) :
  forallb (fun c => (length c =? n)%nat) cols = true
  <-> Forall (fun c => length c = n) cols.
Proof.
  rewrite forallb_forall, Forall_forall. split; intros H c Hc.
  - apply Nat.eqb_eq, H. by apply list_elem_of_In.
  - apply Nat.eqb_eq, H. by apply list_elem_of_In.
Qed.

Lemma bfill_leading m a (post : list (option V)) :
  bfill (replicate m None ++ Some a :: post)
  = replicate m (Some a) ++ Some a :: bfill post.
Proof.
  induction m as [|m IH]; cbn; [done|]. rewrite IH.
  by destruct m.
Qed.

Lemma lookup_replicate_run {A} (l r : list A) (x : A) (m j : nat) :
  (j <= m)%nat ->
  (l ++ replicate (S m) x ++ r) !! (length l + j)%nat = Some x.
Proof.
  intros Hj. rewrite lookup_app_r by lia.
  replace (length l + j - length l)%nat with j by lia.
  rewrite lookup_app_l by (rewrite length_replicate; lia).
  apply lookup_replicate_2. lia.
Qed.

Lemma ffill_interpolate_leading m a (post : list (option V)) :
  exists r,
    ffill_from None (interpolate lerp (replicate m None ++ Some a :: post))
    = replicate m None ++ Some a :: r.
Proof.
  induction m as [|m [r IH]]; cbn; [by eexists|]. rewrite IH. by eexists.
Qed.

Lemma ffill_from_run (a : V) m :
  forall p, ffill_from p (replicate m (Some a)) = replicate m (Some a).
Proof. induction m as [|m IH]; intros p; cbn; [done|]. by rewrite IH. Qed.

Lemma bfill_run (a : V) m : bfill (replicate m (Some a)) = replicate m (Some a).
Proof. induction m as [|m IH]; cbn; [done|]. by rewrite IH. Qed.

Lemma ffill_from_trailing p (l : list (option V)) a m :
  exists l', length l' = length l
    /\ ffill_from p (l ++ replicate (S m) (Some a))
       = l' ++ replicate (S m) (Some a).
Proof.
  revert p. induction l as [|x l IH]; intros p.
  - exists []. split; [done|]. cbn [app]. apply ffill_from_run.
  - destruct (IH (match x with Some v => Some v | None => p end))
      as (l' & Hl' & E).
    eexists (_ :: l'). cbn [app ffill_from]. rewrite E. cbn. by rewrite Hl'.
Qed.

Lemma bfill_trailing (l : list (option V)) a m :
  exists l', length l' = length l
    /\ bfill (l ++ replicate (S m) (Some a)) = l' ++ replicate (S m) (Some a).
Proof.
  induction l as [|x l (l' & Hl' & IH)].
  - exists []. split; [done|]. cbn [app]. apply bfill_run.
  - eexists (_ :: l'). cbn [app bfill]. rewrite IH. cbn. by rewrite Hl'.
Qed.












End interp_facts.

Example getitem_lr_hourly :
  __getitem__ lerp_Q no_call mrr_hourly "temperature_100m" [slice_all; SInt 1]
  = Return (DArray [[Some 10%Q; Some 15%Q; Some 20%Q; Some 20%Q]]).
Proof. reflexivity. Qed.



End MultiResFacts.

(** * Further properties of temporal_stats.py *)

Module TraversalFacts.

Lemma mapM_Return {A B} (f : A -> result B) (l : list A) (r : list B) :
  mapM f l = Return r <-> Forall2 (fun x y => f x = Return y) l r.
Proof.
  revert r. induction l as [|x l IH]; intros r; cbn.
  - split; [intros [= <-]; constructor | by inversion 1].
  - split.
    + destruct (f x) as [y|e] eqn:Ex; cbn; [|done].
      destruct (mapM f l) as [ys|e] eqn:El; cbn; [|done].
      intros [= <-]. constructor; [done|]. by apply IH.
    + inversion 1 as [|? y ? ys Hy Hys]; subst.
      apply IH in Hys. by rewrite Hy, Hys.
Qed.

Lemma mapM_error {A B} (f : A -> result B) (l : list A) e (P : exn -> Prop) :
  (forall x e', f x = Raise e' -> P e') ->
  mapM f l = Raise e -> P e.
Proof.
  intros Hf. induction l as [|x l IH]; cbn; [done|].
  destruct (f x) as [y|e'] eqn:Ex; cbn.
  - destruct (mapM f l) as [ys|e'']; cbn; [done|]. intros [= <-]. by apply IH.
  - intros [= <-]. by eapply Hf.
Qed.

Lemma mapM_error_elem {A B} (f : A -> result B) (l : list A) e
    (P : exn -> Prop) :
  (forall x e', x ∈ l -> f x = Raise e' -> P e') ->
  mapM f l = Raise e -> P e.
Proof.
  induction l as [|x l IH]; intros Hf; cbn; [done|].
  destruct (f x) as [y|e'] eqn:Ex; cbn.
  - destruct (mapM f l) as [ys|e''] eqn:El; cbn; [done|]. intros [= <-].
    apply IH; [|done]. intros z e' Hz. apply Hf. by right.
  - intros [= <-]. eapply Hf; [|done]. by left.
Qed.

Lemma mapM_length {A B} (f : A -> result B) (l : list A) (r : list B) :
  mapM f l = Return r -> length r = length l.
Proof. intros H%mapM_Return. symmetry. by eapply Forall2_length. Qed.

(** A traversal by a function that always returns is a [map]. *)
Lemma mapM_total {A B} (f : A -> result B) (g : A -> B) (l : list A) :
  (forall x, x ∈ l -> f x = Return (g x)) -> mapM f l = Return (map g l).
Proof.
  induction l as [|x l IH]; intros Hf; cbn; [done|].
  rewrite Hf by left. cbn. rewrite IH; [done|].
  intros y Hy. apply Hf. by right.
Qed.

End TraversalFacts.

Module TemporalStatsRestFacts.
Import TemporalStats TemporalStatsRest Examples TemporalStatsFacts TraversalFacts.

(** *** The circular mean *)

(** X14: Weights that are absent or have the data's shape are applied as
    they are passed: on the path that computes the mean neither
    [norm_weights] nor [exponential_weights] is read, the weights are
    neither exponentiated nor normalised, and the caller's array is left
    as it is. *)
Theorem weighted_circular_mean_flags_unused {F} {ops : FloatOps F}
    (np_nanmean : ndarray F -> Z -> result (ndarray F))
    (data : ndarray F) (weights : option (ndarray F)) (degrees : bool)
    (axis : Z) (norm_weights exponential_weights : bool) :
  (forall w, weights = Some w -> shape data = shape w) ->
  weighted_circular_mean np_nanmean data weights degrees axis
    norm_weights exponential_weights
  = (weights,
     circular_mean_of np_nanmean data
       (match weights with
        | Some w => Array w
        | None => Scalar (f_of_Z 1)
        end)
       degrees axis).
Proof.
  intros Hshape. unfold weighted_circular_mean.
  destruct weights as [w|]; [|done].
  by rewrite decide_False by (intros Hne; by apply Hne, Hshape).
Qed.

(** *** The gid index *)

(** X15: For a contiguous slice of sites the index is made of the site numbers
    of the slice, in order. *)
Theorem create_index_contiguous (start : option Z) (stop : Z) :
  0 <= default 0 start <= stop ->
  0 < stop ->
  _create_index (SSlice start (Some stop) None)
  = Return (SList (map (fun k => default 0 start + Z.of_nat k)
                       (seq 0 (Z.to_nat (stop - default 0 start))))).
Proof.
  intros Hstart Hstop. unfold _create_index. cbn [truthy].
  destruct (Z.eqb_spec stop 0); [lia|]. cbn [negb].
  assert (slice_indices start (Some stop) None (default 0 (Some stop))
          = Return (default 0 start, stop, 1)) as ->.
  { unfold slice_indices, clamp_index. cbn [default]. unfold id.
    destruct (Z.ltb_spec stop 0); [lia|].
    cbn [Z.eqb Z.ltb Z.compare]. do 3 f_equal; [|lia].
    destruct start as [a|]; cbn [default] in *; unfold id in *; [|done].
    destruct (Z.ltb_spec a 0); lia. }
  generalize dependent (default 0 start). intros a Ha.
  cbn. do 2 f_equal. unfold range, range_len. cbn [Z.ltb Z.compare].
  destruct (Z.ltb_spec a stop).
  - rewrite Z.div_1_r. replace (stop - a - 1 + 1) with (stop - a) by lia.
    apply map_ext. intros k. lia.
  - by replace (stop - a) with 0 by lia.
Qed.

(** *** Grouping and column names *)

Lemma key_cmp_eq a b : key_cmp a b = Eq -> a = b.
Proof.
  revert b. induction a as [|x a IH]; intros [|y b]; cbn; try done.
  destruct (Z.compare_spec x y); try done. intros. f_equal; [done|by apply IH].
Qed.

Lemma insert_key_In k k' l : In k' (insert_key k l) <-> k' = k \/ In k' l.
Proof.
  induction l as [|h l IH]; cbn.
  - intuition (subst; auto).
  - destruct (key_cmp k h) eqn:E; cbn.
    + apply key_cmp_eq in E as ->. intuition (subst; auto).
    + intuition (subst; auto).
    + rewrite IH. intuition (subst; auto).
Qed.

Lemma unique_keys_In k ks : In k (unique_keys ks) <-> In k ks.
Proof.
  unfold unique_keys. induction ks as [|h ks IH]; cbn; [done|].
  rewrite insert_key_In, IH. intuition (subst; auto).
Qed.

Lemma row_keys_In k G n :
  In k (row_keys G n)
  <-> exists i, (i < n)%nat /\ k = map (fun g => nth i g 0) G.
Proof.
  unfold row_keys. rewrite in_map_iff. setoid_rewrite in_seq.
  split; intros (i & ? & ?); exists i; split; (done || lia).
Qed.

Lemma nth_map_lt {A B} (f : A -> B) (l : list A) i d d' :
  (i < length l)%nat -> nth i (map f l) d' = f (nth i l d).
Proof.
  intros Hi. rewrite (nth_indep _ d' (f d)) by (by rewrite length_map).
  apply map_nth.
Qed.

Lemma map_nth_seq {A} (l : list A) d :
  map (fun i => nth i l d) (seq 0 (length l)) = l.
Proof.
  induction l as [|x l IH]; [done|]. cbn. f_equal.
  by rewrite <- seq_shift, map_map.
Qed.

Lemma zip_with_seq {A B C} (f : A -> B -> C) (l : list A) (k : list B) a b :
  length l = length k ->
  zip_with f l k
  = map (fun j => f (nth j l a) (nth j k b)) (seq 0 (length l)).
Proof.
  revert k. induction l as [|x l IH]; intros [|y k] Hlen; try done.
  cbn. f_equal. rewrite <- seq_shift, map_map. apply IH. by injection Hlen.
Qed.

Lemma zip_map_map {A B C} (f : A -> B) (g : A -> C) (l : list A) :
  zip (map f l) (map g l) = map (fun x => (f x, g x)) l.
Proof. induction l; cbn; by f_equal. Qed.

Lemma foldl_max_spec x l :
  In (foldl Z.max x l) (x :: l)
  /\ forall y, In y (x :: l) -> y <= foldl Z.max x l.
Proof.
  revert x. induction l as [|z l IH]; intros x; cbn.
  - split; [by left|]. intros y [->|[]]. lia.
  - destruct (IH (Z.max x z)) as [Hin Hle]. split.
    + destruct Hin as [Hm|Hin]; [|by right; right].
      rewrite <- Hm. destruct (Z.max_spec x z) as [[_ ->]|[_ ->]]; auto.
    + intros y Hy.
      assert (Z.max x z <= foldl Z.max (Z.max x z) l) by (apply Hle; by left).
      destruct Hy as [->|[->|Hy]]; [lia|lia|]. apply Hle. by right.
Qed.

Lemma max_of_spec l :
  l <> [] -> In (max_of l) l /\ forall y, In y l -> y <= max_of l.
Proof. destruct l as [|x l]; [done|]. intros _. apply foldl_max_spec. Qed.

Lemma max_of_ext l1 l2 :
  l1 <> [] -> (forall x, In x l1 <-> In x l2) -> max_of l1 = max_of l2.
Proof.
  intros H1 Hext.
  assert (l2 <> []) as H2.
  { destruct l1 as [|x l1]; [done|]. intros ->. by apply (Hext x); left. }
  destruct (max_of_spec l1 H1) as [Hin1 Hle1].
  destruct (max_of_spec l2 H2) as [Hin2 Hle2].
  apply Hext in Hin1. apply Hext in Hin2.
  apply Hle2 in Hin1. apply Hle1 in Hin2. lia.
Qed.

Lemma list_max_max_of l : l <> [] -> list_max l = Return (max_of l).
Proof. by destruct l. Qed.

Lemma fmt_month_valid k :
  1 <= k <= 12 -> fmt_month k = Return (grp_label 12 k).
Proof.
  intros Hk.
  assert (k = 1 \/ k = 2 \/ k = 3 \/ k = 4 \/ k = 5 \/ k = 6 \/ k = 7
          \/ k = 8 \/ k = 9 \/ k = 10 \/ k = 11 \/ k = 12) as H by lia.
  repeat (destruct H as [->|H]; [reflexivity|]). by subst.
Qed.

Lemma fmt_month_invalid k : ~ 1 <= k <= 12 -> fmt_month k = Raise KeyError.
Proof.
  intros Hk. unfold fmt_month.
  destruct (month_map k) eqn:E; [|done]. exfalso. apply Hk.
  unfold month_map in E.
  repeat match type of E with
         | match ?x with _ => _ end = _ => destruct x; try done; try lia
         end.
Qed.


Section keys.
Variables (G : list (list Z)) (n : nat).
Hypothesis G_nonempty : G <> [].
Hypothesis n_pos : n <> 0%nat.
Hypothesis G_length : forall arr, In arr G -> length arr = n.

Local Abbreviation uks := (unique_keys (row_keys G n)).
Local Abbreviation component j := (map (fun key => nth j key 0) uks).

Lemma uks_key key :
  In key uks <-> exists i, (i < n)%nat /\ key = map (fun g => nth i g 0) G.
Proof. by rewrite unique_keys_In, row_keys_In. Qed.

Lemma uks_key_length key : In key uks -> length key = length G.
Proof. intros (i & _ & ->)%uks_key. apply length_map. Qed.

Lemma uks_nonempty : uks <> [].
Proof.
  assert (In (map (fun g => nth 0 g 0) G) uks) as Hin.
  { apply uks_key. exists 0%nat. split; [lia|done]. }
  by destruct uks.
Qed.

Lemma components_uks :
  components uks = map (fun j => component j) (seq 0 (length G)).
Proof.
  unfold components. pose proof uks_nonempty as Hne.
  pose proof uks_key_length as Hlen.
  destruct uks as [|k0 ks]; [done|]. rewrite (Hlen k0); [done|by left].
Qed.

Lemma component_In j x :
  (j < length G)%nat -> In x (component j) <-> In x (nth j G []).
Proof.
  intros Hj. rewrite in_map_iff. setoid_rewrite uks_key.
  assert (In (nth j G []) G) as Harr by by apply nth_In.
  assert (forall i, nth j (map (fun g => nth i g 0) G) 0 = nth i (nth j G []) 0)
    as Hnth
    by (intros i; by rewrite (nth_map_lt (fun g => nth i g 0) G j [] 0)).
  split.
  - intros (key & <- & i & Hi & ->). rewrite Hnth. apply nth_In.
    by rewrite (G_length _ Harr).
  - intros (i & Hi & <-)%(In_nth _ _ 0).
    exists (map (fun g => nth i g 0) G). split; [done|].
    exists i. split; [|done]. by rewrite <- (G_length _ Harr).
Qed.

Lemma component_nonempty j : component j <> [].
Proof. pose proof uks_nonempty. by destruct uks. Qed.

Lemma component_max j :
  (j < length G)%nat -> max_of (component j) = max_of (nth j G []).
Proof.
  intros Hj. apply max_of_ext; [apply component_nonempty|].
  intros x. by apply component_In.
Qed.

(** The body of the loop of [_format_grp_names]. *)
Local Abbreviation format_component :=
  (fun grp_i : list Z =>
     grp_max ← list_max grp_i;
     if grp_max <=? 12 then mapM fmt_month grp_i
     else if grp_max <=? 23 then mapM fmt_hour grp_i
     else mapM fmt_year grp_i).

Lemma format_component_valid comp :
  comp <> [] ->
  (max_of comp <= 12 -> forall k, In k comp -> 1 <= k <= 12) ->
  format_component comp = Return (map (grp_label (max_of comp)) comp).
Proof.
  intros Hne Hvalid. cbv beta. rewrite list_max_max_of by done. cbn.
  unfold grp_label.
  destruct (Z.leb_spec (max_of comp) 12) as [Hle|_].
  - apply mapM_total. intros k Hk%list_elem_of_In.
    rewrite (fmt_month_valid k) by by apply Hvalid. done.
  - destruct (max_of comp <=? 23); by apply mapM_total.
Qed.

Lemma format_component_error comp e :
  format_component comp = Raise e -> comp <> [] -> e = KeyError.
Proof.
  intros H Hne. cbv beta in H. rewrite list_max_max_of in H by done.
  cbn in H.
  destruct (max_of comp <=? 12).
  - apply (mapM_error fmt_month comp e (fun e => e = KeyError)); [|done].
    intros k e' He. unfold fmt_month in He.
    destruct (month_map k); congruence.
  - destruct (max_of comp <=? 23);
      [rewrite (mapM_total fmt_hour (fun k => grp_label 13 k)) in H
      |rewrite (mapM_total fmt_year (fun k => grp_label 24 k)) in H]; done.
Qed.

Lemma format_component_invalid comp k :
  max_of comp <= 12 -> In k comp -> ~ 1 <= k <= 12 ->
  raises (format_component comp).
Proof.
  intros Hle Hk Hbad.
  assert (comp <> []) by (by destruct comp).
  cbv beta. rewrite list_max_max_of by done. cbn.
  destruct (Z.leb_spec (max_of comp) 12); [|lia].
  apply (mapM_raises _ _ k); [by apply list_elem_of_In|].
  rewrite fmt_month_invalid by done. by eexists.
Qed.

Lemma format_grp_names_invalid arr k :
  In arr G -> max_of arr <= 12 -> In k arr -> ~ 1 <= k <= 12 ->
  _format_grp_names uks = Raise KeyError.
Proof.
  intros Harr Hmax Hk Hbad.
  apply (In_nth _ _ []) in Harr as (j & Hj & <-).
  unfold _format_grp_names.
  destruct (mapM _ (components uks)) as [out|e] eqn:Hout; cbn.
  - exfalso.
    assert (raises (mapM format_component (components uks))) as [e He];
      [|cbv beta in He; congruence].
    apply (mapM_raises _ _ (component j)).
    + rewrite components_uks. apply list_elem_of_In, in_map_iff.
      exists j. split; [done|]. apply in_seq. lia.
    + apply (format_component_invalid _ k); [|by apply component_In|done].
      by rewrite component_max.
  - f_equal. revert Hout.
    apply (mapM_error_elem _ _ e (fun e => e = KeyError)).
    intros comp e' Hcomp%list_elem_of_In He.
    apply (format_component_error comp); [done|].
    rewrite components_uks in Hcomp.
    apply in_map_iff in Hcomp as (j' & <- & _). apply component_nonempty.
Qed.

Hypothesis G_valid :
  forall arr, In arr G -> max_of arr <= 12 ->
    forall k, In k arr -> 1 <= k <= 12.

Lemma format_grp_names_keys :
  _format_grp_names uks
  = Return (map (fun key => zip_with grp_label (map max_of G) key) uks).
Proof.
  unfold _format_grp_names.
  rewrite (mapM_total _ (fun comp => map (grp_label (max_of comp)) comp)).
  2:{ intros comp Hcomp%list_elem_of_In.
      rewrite components_uks in Hcomp.
      apply in_map_iff in Hcomp as (j & <- & Hj%in_seq).
      assert (j < length G)%nat as Hj' by lia.
      apply format_component_valid; [apply component_nonempty|].
      rewrite component_max by done. intros Hmax k Hk%component_In; [|done].
      eapply G_valid; [|done..]. by apply nth_In. }
  cbn. f_equal. rewrite components_uks, !map_map.
  transitivity
    (map (fun key => zip_with grp_label (map max_of G) key)
         (map (fun i => nth i uks []) (seq 0 (length uks))));
    [|by rewrite map_nth_seq].
  rewrite map_map. apply map_ext_in. intros i Hi%in_seq.
  assert (i < length uks)%nat as Hi' by lia.
  assert (length (nth i uks []) = length G) as Hlen
    by (by apply uks_key_length, nth_In).
  rewrite (zip_with_seq _ _ _ 0 0) by (by rewrite length_map).
  rewrite !map_map, length_map. apply map_ext_in. intros j Hj%in_seq.
  assert (j < length G)%nat as Hj' by lia.
  rewrite (nth_map_lt _ _ _ 0) by (by rewrite length_map).
  rewrite (nth_map_lt _ _ _ []) by done.
  rewrite component_max by done.
  by rewrite (nth_map_lt max_of _ _ []).
Qed.

End keys.

Lemma groupers_nonempty idx diurnal month :
  month || diurnal = true -> groupers idx diurnal month <> [].
Proof. by destruct month, diurnal. Qed.

Lemma groupers_length idx diurnal month arr :
  In arr (groupers idx diurnal month) -> length arr = length idx.
Proof.
  unfold groupers.
  destruct month, diurnal; cbn; intros H; repeat destruct H as [<-|H];
    try done; apply length_map.
Qed.

Lemma dict_get_map {A} (h : string -> A) name stats :
  In name stats -> dict_get name (map (fun s => (s, h s)) stats) = Some (h name).
Proof.
  induction stats as [|s stats IH]; [done|]. intros Hin. cbn.
  destruct (decide (name = s)) as [->|Hne]; [done|].
  destruct Hin as [->|Hin]; [done|by apply IH].
Qed.

Section grouped.
Context {F : Type}.

Lemma pd_groupby_keys (df : DataFrame (F:=F)) G :
  map fst (pd_groupby df G) = unique_keys (row_keys G (length (index df))).
Proof. unfold pd_groupby. rewrite map_map. apply map_id. Qed.

(** X16: With month or diurnal grouping and no weighted statistic,
    [_compute_stats] gives one column per statistic and group: its name
    is the group's key, each component written by the formatter of that
    component, followed by the statistic's name, and its values are the
    statistic's function applied to each site's samples of the group.
    A component whose largest value is at most 12 must hold month numbers
    only. *)
Theorem compute_stats_grouped_columns (res_data : DataFrame (F:=F))
    (statistics : list (string * Stat)) (diurnal month : bool) :
  let groupby := groupers (index res_data) diurnal month in
  month || diurnal = true ->
  index res_data <> [] ->
  statistics <> [] ->
  (forall ns, In ns statistics -> String.prefix "weight" (lower ns.1) = false) ->
  (forall arr, In arr groupby -> max_of arr <= 12 ->
     forall k, In k arr -> 1 <= k <= 12) ->
  _compute_stats res_data statistics diurnal month None
  = Return
      (concat
         (map (fun ns =>
                 map (fun g =>
                        (group_label (map max_of groupby) g.1 +:+ "_" +:+ ns.1,
                         map (call_column (func ns.2)) (columns g.2)))
                     (pd_groupby res_data groupby))
              statistics)).
Proof.
  intros groupby Hgrp Hidx Hstats Hplain Hvalid.
  pose proof (groupers_nonempty (index res_data) _ _ Hgrp) as Hne.
  pose proof (fun arr => groupers_length (index res_data) diurnal month arr)
    as Hlen.
  assert (length (index res_data) <> 0%nat) as Hn
    by (by destruct (index res_data)).
  unfold _compute_stats. fold (groupers (index res_data) diurnal month).
  fold groupby. fold groupby in Hne, Hlen.
  pose proof (format_grp_names_keys groupby _ Hn Hlen Hvalid) as Hfmt.
  clearbody groupby. destruct groupby as [|g0 gs]; [done|].
  set (G := g0 :: gs) in *.
  match goal with |- _ = ?r => set (rhs := r) end.
  cbn. subst rhs. clearbody G.
  unfold _create_names. rewrite pd_groupby_keys, Hfmt. cbn.
  set (uks := unique_keys _) in *.
  rewrite (mapM_total _
    (fun ns : string * Stat =>
       map (fun g : list Z * DataFrame (F:=F) =>
              (group_label (map max_of G) g.1 +:+ "_" +:+ ns.1,
               map (call_column (func ns.2)) (columns g.2)))
           (pd_groupby res_data G))).
  2:{ intros [name stat] Hin%list_elem_of_In.
      pose proof (Hplain _ Hin) as Hname. cbn [fst snd] in *.
      rewrite Hname. cbn -[dict_get].
      rewrite (dict_get_map
                 (fun s => map (fun n => join "-" n +:+ "_" +:+ s)
                               (map (fun key => zip_with grp_label
                                                  (map max_of G) key) uks))).
      2:{ apply in_map_iff. by exists (name, stat). }
      cbn. unfold set_columns.
      rewrite !length_map.
      assert (uks = map fst (pd_groupby res_data G)) as ->
        by (by rewrite pd_groupby_keys).
      rewrite length_map, Nat.eqb_refl.
      f_equal. rewrite !map_map. apply zip_map_map. }
  by destruct statistics.
Qed.

(** X17: The formatter of a key component is chosen by the component's
    largest value alone: hours that do not pass noon are read as month
    numbers, and an hour 0 among them, or any value that is no month, ends
    the call with a [KeyError]. *)
Theorem compute_stats_grouped_KeyError (res_data : DataFrame (F:=F))
    (statistics : list (string * Stat)) (diurnal month : bool)
    (arr : list Z) (k : Z) :
  In arr (groupers (index res_data) diurnal month) ->
  max_of arr <= 12 ->
  In k arr ->
  ~ 1 <= k <= 12 ->
  _compute_stats res_data statistics diurnal month None = Raise KeyError.
Proof.
  intros Harr Hmax Hk Hbad.
  pose proof (fun arr => groupers_length (index res_data) diurnal month arr)
    as Hlen.
  assert (length (index res_data) <> 0%nat) as Hn.
  { rewrite <- (Hlen _ Harr). by destruct arr. }
  pose proof (format_grp_names_invalid _ _ Hn Hlen arr k Harr Hmax Hk Hbad)
    as Hfmt.
  unfold _compute_stats. fold (groupers (index res_data) diurnal month).
  destruct (groupers _ _ _) as [|g0 gs]; [done|].
  set (G := g0 :: gs) in *. cbn. clearbody G.
  unfold _create_names. by rewrite pd_groupby_keys, Hfmt.
Qed.

Lemma Forall2_singletons {A B} (P : A -> B -> Prop) l (tables : list (list B)) :
  Forall2 (fun x tbl => exists col, tbl = [col] /\ P x col) l tables ->
  Forall2 P l (concat tables).
Proof.
  induction 1 as [|x tbl l tables (col & -> & Hcol) _ IH]; cbn; by constructor.
Qed.

Lemma concat_singletons {B} (t : list B) : concat (map (fun c => [c]) t) = t.
Proof. induction t; cbn; by f_equal. Qed.

(** The column a statistic contributes when nothing is grouped. *)
Local Abbreviation ungrouped_column res_data :=
  (fun (ns : string * Stat (F:=F)) (col : string * list F) =>
     if String.prefix "weight" (lower ns.1)
     then exists s_data,
            call_weighted (func ns.2) (Frame res_data)
              (default None (kwargs ns.2)) = Return s_data
            /\ col = ("weighted_mean"%string, s_data)
     else col = (ns.1, map (call_column (func ns.2)) (columns res_data))).

(** X18: Without grouping [_compute_stats] returns one column per statistic,
    in the order of the request, exactly when the request is not empty
    and every weighted statistic's function returns.  A plain statistic's
    column carries its name; the column of a statistic whose name starts
    with "weight" is called "weighted_mean" whatever the name, and its
    weights are those of the statistic's own kwargs: the [weights]
    argument of the call is not used. *)
Theorem compute_stats_ungrouped (res_data : DataFrame (F:=F))
    (statistics : list (string * Stat)) (weights : option frame)
    (t : Table) :
  _compute_stats res_data statistics false false weights = Return t
  <-> statistics <> [] /\ Forall2 (ungrouped_column res_data) statistics t.
Proof.
  unfold _compute_stats. cbn.
  set (f := fun '(name, stat) => _).
  assert (forall ns tbl,
            f ns = Return tbl
            <-> exists col, tbl = [col] /\ ungrouped_column res_data ns col)
    as Hf.
  { intros [name stat] tbl. subst f. cbn.
    destruct (String.prefix "weight" (lower name)).
    - unfold _compute_weighted_stats.
      destruct (call_weighted _ _ _) as [s_data|e]; cbn.
      + split; [intros [= <-]; eauto|].
        by intros (col & -> & s & [= <-] & ->).
      + split; [done|]. by intros (col & _ & s & ? & _).
    - split; [intros [= <-]; eauto|]. by intros (col & -> & ->). }
  split.
  - destruct (mapM f statistics) as [tables|e] eqn:Hm; [|done]. cbn.
    apply mapM_Return in Hm.
    assert (Forall2 (ungrouped_column res_data) statistics (concat tables))
      as Hcols.
    { apply Forall2_singletons. eapply Forall2_impl; [done|].
      intros ns tbl. apply Hf. }
    destruct tables as [|tbl tables]; [done|]. intros [= <-].
    split; [|done]. by inversion Hm.
  - intros [Hne Hcols].
    assert (mapM f statistics = Return (map (fun c => [c]) t)) as ->.
    { apply mapM_Return. clear Hne.
      induction Hcols as [|ns col l t' Hcol _ IH]; cbn; constructor; [|done].
      apply Hf. eauto. }
    destruct Hcols as [|ns col l t' Hcol Hcols]; [done|].
    cbn. do 2 f_equal. apply concat_singletons.
Qed.

End grouped.

(** *** The statistics request *)

Section request_facts.
Context {F : Type}.
Variables np_nanmean np_nanmedian np_nanstd : Callable (F:=F).

Local Abbreviation STATS := (STATS np_nanmean np_nanmedian np_nanstd).
Local Abbreviation stats_of_names :=
  (stats_of_names np_nanmean np_nanmedian np_nanstd).
Local Abbreviation _check_stats :=
  (_check_stats np_nanmean np_nanmedian np_nanstd).

Lemma dict_get_STATS s :
  dict_get s STATS = None <-> s ∉ ["mean"; "median"; "std"]%string.
Proof.
  cbn. rewrite !not_elem_of_cons.
  repeat (case_decide; [subst; split; [done|tauto]|]).
  split; [intros _|done]. split_and!; try done. apply not_elem_of_nil.
Qed.

Lemma dict_get_elem {A} s (v : A) d : dict_get s d = Some v -> (s, v) ∈ d.
Proof.
  induction d as [|[k w] d IH]; cbn; [done|].
  case_decide; [intros [= ->]; subst; by left|]. intros. right. by apply IH.
Qed.

Lemma check_entry_STATS s e : (s, e) ∈ STATS -> check_entry e = Return ().
Proof.
  intros H. repeat (apply elem_of_cons in H as [[= _ ->]|H]; [done|]).
  by apply elem_of_nil in H.
Qed.

Lemma dict_set_keys {A} k (v : A) d :
  (dict_set k v d).*1 = if decide (k ∈ d.*1) then d.*1 else d.*1 ++ [k].
Proof.
  induction d as [|[k' v'] d IH]; cbn.
  - by rewrite decide_False by apply not_elem_of_nil.
  - destruct (decide (k' = k)) as [->|Hne]; cbn.
    + by rewrite decide_True by (apply elem_of_cons; by left).
    + rewrite IH. destruct (decide (k ∈ d.*1)).
      * by rewrite decide_True by (apply elem_of_cons; by right).
      * rewrite decide_False; [done|].
        by intros [?|?]%elem_of_cons.
Qed.

Lemma dict_set_elem {A} k (v : A) d kv :
  kv ∈ dict_set k v d -> kv = (k, v) \/ kv ∈ d.
Proof.
  induction d as [|[k' v'] d IH]; cbn.
  - intros ->%list_elem_of_singleton. by left.
  - case_decide; subst.
    + intros [->|?]%elem_of_cons; [by left|]. right. by right.
    + intros [->|?]%elem_of_cons; [right; by left|].
      destruct IH as [?|?]; [done|by left|]. right. by right.
Qed.

Lemma stats_of_names_returns l d :
  (forall s, s ∈ l -> s ∈ ["mean"; "median"; "std"]%string) ->
  exists d',
    stats_of_names l d = Return d'
    /\ (forall s, s ∈ d'.*1 <-> s ∈ d.*1 \/ s ∈ l)
    /\ (NoDup d.*1 -> NoDup d'.*1)
    /\ (forall kv, kv ∈ d' -> kv ∈ d \/ kv ∈ STATS)
    /\ (NoDup (d.*1 ++ l) -> d'.*1 = d.*1 ++ l).
Proof.
  revert d. induction l as [|s l IH]; intros d Hl.
  - exists d. split_and!; try done.
    + intros s. split; [by left|]. by intros [?|?%elem_of_nil].
    + auto.
    + by rewrite app_nil_r.
  - destruct (dict_get s STATS) as [v|] eqn:Hs.
    2:{ apply dict_get_STATS in Hs. destruct Hs. apply Hl. by left. }
    destruct (IH (dict_set s v d)) as (d' & Hd' & Hkeys & Hnodup & Hfrom & Hord).
    { intros s' Hs'. apply Hl. by right. }
    exists d'. cbn -[TemporalStatsRest.STATS]. rewrite Hs.
    split; [done|]. rewrite dict_set_keys in Hkeys, Hnodup, Hord.
    split_and!.
    + intros s'. rewrite Hkeys, elem_of_cons.
      case_decide; rewrite ?elem_of_app, ?list_elem_of_singleton;
        intuition (subst; auto).
    + intros Hd. apply Hnodup. case_decide; [done|].
      apply NoDup_app. split_and!; [done| |apply NoDup_singleton].
      by intros x Hx ->%list_elem_of_singleton.
    + intros kv [[->|?]%dict_set_elem|?]%Hfrom; auto.
      right. by apply dict_get_elem.
    + intros Hd. rewrite Hord.
      * rewrite decide_False; [by rewrite <- app_assoc|].
        apply NoDup_app in Hd as (_ & Hd & _). intros Hin.
        apply (Hd s Hin). by left.
      * rewrite decide_False; [by rewrite <- app_assoc|].
        apply NoDup_app in Hd as (_ & Hd & _). intros Hin.
        apply (Hd s Hin). by left.
Qed.

Lemma stats_of_names_unknown l d s :
  s ∈ l -> s ∉ ["mean"; "median"; "std"]%string ->
  stats_of_names l d = Raise KeyError.
Proof.
  intros Hs Hbad. revert d.
  induction l as [|s' l IH]; intros d; [by apply elem_of_nil in Hs|].
  cbn -[TemporalStatsRest.STATS].
  destruct (dict_get s' STATS) as [v|] eqn:Hs'; [|done].
  apply IH. apply elem_of_cons in Hs as [->|Hs]; [|done].
  apply dict_get_STATS in Hbad. congruence.
Qed.

(** X20: Names of known statistics are replaced by the entries of [STATS]:
    the request that results holds every requested name once, with the
    function and kwargs of the class, in the order of the first requests
    of the names. *)
Theorem check_stats_known_names (l : list string) :
  Forall (fun s => s ∈ ["mean"; "median"; "std"]%string) l ->
  exists d,
    _check_stats (RNames l) = Return d
    /\ (forall s, s ∈ d.*1 <-> s ∈ l)
    /\ NoDup d.*1
    /\ (forall kv, kv ∈ d -> kv ∈ STATS)
    /\ (NoDup l -> d.*1 = l).
Proof.
  intros Hl. rewrite Forall_forall in Hl.
  destruct (stats_of_names_returns l [] Hl)
    as (d & Hd & Hkeys & Hnodup & Hfrom & Hord).
  exists d. unfold TemporalStatsRest._check_stats. rewrite Hd. cbn.
  rewrite (mapM_total _ (fun _ => ())).
  2:{ intros [s e] [Hin|Hin]%Hfrom; [by apply elem_of_nil in Hin|].
      by apply (check_entry_STATS s). }
  split; [done|]. split_and!.
  - intros s. rewrite Hkeys. split; [|by right].
    by intros [?%elem_of_nil|?].
  - apply Hnodup. constructor.
  - intros kv [Hin|Hin]%Hfrom; [by apply elem_of_nil in Hin|done].
  - apply Hord.
Qed.

(** X21: A name, alone or in a tuple, that is no key of [STATS] is a
    [KeyError]. *)
Theorem check_stats_unknown_name (l : list string) (s : string) :
  s ∈ l -> s ∉ ["mean"; "median"; "std"]%string ->
  _check_stats (RNames l) = Raise KeyError
  /\ (l = [s] -> _check_stats (RStr s) = Raise KeyError).
Proof.
  intros Hs Hbad.
  assert (_check_stats (RNames l) = Raise KeyError) as H.
  { unfold TemporalStatsRest._check_stats.
    by rewrite (stats_of_names_unknown l [] s). }
  split; [done|]. by intros ->.
Qed.

(** X22: A dict request is returned as it is when every entry has a function
    and, if it has kwargs, a dict of them; any other dict request is an
    [AssertionError]. *)
Theorem check_stats_dict (d : list (string * entry (F:=F))) :
  let valid (kv : string * entry) :=
    is_Some (e_func kv.2) /\ e_kwargs kv.2 <> Some KwOther in
  (Forall valid d -> _check_stats (RDict d) = Return d)
  /\ (~ Forall valid d -> _check_stats (RDict d) = Raise AssertionError).
Proof.
  intros valid. unfold TemporalStatsRest._check_stats. cbn.
  assert (forall kv, valid kv -> check_entry kv.2 = Return ()) as Hok.
  { intros [s [[f|] [[w|]|]]] [[? ?] ?]; done. }
  assert (forall kv e, check_entry kv.2 = Raise e -> e = AssertionError /\ ~ valid kv)
    as Hbad.
  { intros [s [[f|] [[w|]|]]] e; cbn; intros [= <-]; (split; [done|]);
      intros [[? ?] ?]; done. }
  split.
  - intros Hd. rewrite (mapM_total _ (fun _ => ())); [done|].
    intros kv Hkv. apply Hok. by eapply Forall_forall in Hd.
  - intros Hd.
    destruct (mapM _ d) as [us|e] eqn:Hm; cbn.
    + destruct Hd. apply mapM_Return in Hm. clear Hok.
      induction Hm as [|kv u d us Hkv _ IH]; constructor; [|done].
      destruct kv as [s [[f|] [[w|]|]]]; cbn in Hkv; try done;
        (split; [by eexists|done]).
    + f_equal. revert Hm.
      apply (mapM_error _ _ e (fun e => e = AssertionError)).
      intros kv e' He. by apply Hbad in He as [-> _].
Qed.

End request_facts.

(** *** Writing the table *)

Lemma append_cons c a b : String c a +:+ b = String c (a +:+ b).
Proof. reflexivity. Qed.

Lemma length_append a b :
  String.length (a +:+ b) = (String.length a + String.length b)%nat.
Proof.
  induction a as [|c a IH]; [done|]. rewrite append_cons. cbn. by rewrite IH.
Qed.

Lemma substring_append a b :
  substring (String.length a) (String.length b) (a +:+ b) = b.
Proof.
  induction a as [|c a IH]; [|by rewrite append_cons].
  change (EmptyString +:+ b) with b.
  induction b as [|c b IH]; cbn; by f_equal.
Qed.

Lemma endswith_append a suffix : endswith (a +:+ suffix) suffix = true.
Proof.
  unfold endswith. rewrite length_append.
  replace (String.length a + String.length suffix - String.length suffix)%nat
    with (String.length a) by lia.
  rewrite substring_append, String.eqb_refl, andb_true_r.
  apply Nat.leb_le. lia.
Qed.

Lemma append_assoc a b c : (a +:+ b) +:+ c = a +:+ (b +:+ c).
Proof.
  induction a as [|x a IH]; [done|]. rewrite !append_cons. by rewrite IH.
Qed.

Lemma remove_char_append c a b :
  remove_char c (a +:+ b) = remove_char c a +:+ remove_char c b.
Proof.
  induction a as [|x a IH]; [done|]. rewrite append_cons. cbn.
  destruct (Ascii.eqb x c); [done|]. by rewrite append_cons, IH.
Qed.

Lemma remove_char_clean c s :
  string_forallb (fun a => negb (Ascii.eqb a c)) (remove_char c s) = true.
Proof.
  induction s as [|x s IH]; cbn; [done|].
  destruct (Ascii.eqb x c) eqn:E; cbn; [done|]. by rewrite E.
Qed.

Lemma path_join_suffix a b suffix :
  exists x, path_join a (b +:+ suffix) = x +:+ suffix.
Proof.
  unfold path_join. destruct (startswith _ _); [by eexists|].
  destruct (_ || _).
  - exists (a +:+ b). by rewrite append_assoc.
  - exists (a +:+ "/" +:+ b). by rewrite !append_assoc.
Qed.

Lemma directory_path_csv a b :
  endswith (remove_char "*" (path_join a (b +:+ ".csv"))) ".csv" = true.
Proof.
  destruct (path_join_suffix a b ".csv") as [x ->].
  rewrite remove_char_append.
  change (remove_char "*" ".csv") with ".csv"%string.
  apply endswith_append.
Qed.

(** X23: When the target is a directory exactly one write is asked for, a
    CSV write, and what the call returns or raises is what becomes of
    that write.  The file is named after the resource file without its
    extension and joined to the directory; every wildcard character is
    then removed from the whole path, the directory's part included. *)
Theorem save_stats_directory (isdir : string -> bool)
    (perform : write -> result unit) (res_h5 out_path : string) :
  isdir out_path = true ->
  let out_fpath :=
    remove_char "*"
      (path_join out_path
         (splitext_root (MultiRes.basename res_h5) +:+ ".csv")) in
  save_stats isdir perform res_h5 out_path
  = ([to_csv out_fpath], perform (to_csv out_fpath)).
Proof.
  intros Hdir out_fpath. unfold save_stats. rewrite Hdir.
  fold out_fpath. subst out_fpath. by rewrite directory_path_csv.
Qed.

(** X24: At most one write is asked for.  Its path never holds a wildcard
    character and ends in the extension of its format, which is tested
    after the wildcards are dropped, and the call returns or raises what
    becomes of the write.  When no write is asked for, the target is no
    directory and the call raises the [OSError] that reports the path as
    it was given. *)
Theorem save_stats_outcome (isdir : string -> bool)
    (perform : write -> result unit) (res_h5 out_path : string) :
  let clean p := string_forallb (fun a => negb (Ascii.eqb a "*")) p = true in
  match save_stats isdir perform res_h5 out_path with
  | ([to_csv p], r) =>
      clean p /\ endswith p ".csv" = true /\ r = perform (to_csv p)
  | ([to_json p], r) =>
      clean p /\ endswith p ".json" = true /\ r = perform (to_json p)
      /\ isdir out_path = false
  | ([], r) =>
      isdir out_path = false
      /\ r = Raise (OSError
                      ("Cannot save statistics, expecting a directory, .csv, or "
                       +:+ ".json path, but got: " +:+ out_path))
  | _ => False
  end.
Proof.
  intros clean. unfold save_stats. destruct (isdir out_path) eqn:Hdir.
  - rewrite directory_path_csv. split; [apply remove_char_clean|].
    split; [apply directory_path_csv|done].
  - destruct (endswith _ ".csv") eqn:Hcsv;
      [split; [apply remove_char_clean|done]|].
    destruct (endswith _ ".json") eqn:Hjson;
      [split; [apply remove_char_clean|done]|done].
Qed.

(** *** The worker *)

Section worker_facts.
Context {F T : Type}.
Variable set_index : Table (F:=F) -> selector -> result T.


End worker_facts.

(** *** The statements on concrete inputs *)

Lemma create_index_contiguous_witness :
  0 <= default 0 (Some 2) <= 5
  /\ 0 < 5
  /\ _create_index (SSlice (Some 2) (Some 5) None) = Return (SList [2; 3; 4]).
Proof.
  split; [cbn; lia|]. split; [lia|].
  apply (create_index_contiguous (Some 2) 5); cbn; lia.
Defined.

Lemma compute_stats_grouped_columns_witness :
  _compute_stats winddirection
    [("mean"%string, {| func := circular_mean; kwargs := None |})] true true None
  = Return [("Jan-00:00UTC_mean"%string, [0; 10]%Q);
            ("Jan-13:00UTC_mean"%string, [90; 20]%Q);
            ("Jul-00:00UTC_mean"%string, [180; 30]%Q);
            ("Jul-13:00UTC_mean"%string, [270; 40]%Q)].
Proof.
  apply (compute_stats_grouped_columns winddirection
           [("mean"%string, {| func := circular_mean; kwargs := None |})]
           true true).
  - reflexivity.
  - discriminate.
  - discriminate.
  - intros ns [<-|[]]. reflexivity.
  - intros arr [<-|[<-|[]]] Hmax k Hk; vm_compute in Hmax; [|done].
    cbn in Hk. repeat destruct Hk as [<-|Hk]; (lia || done).
Defined.

Lemma compute_stats_grouped_KeyError_witness :
  _compute_stats
    {| index := [stamp 1 1 0; stamp 1 1 6]; columns := [[1; 2]%Q] |}
    [("mean"%string, {| func := circular_mean; kwargs := None |})]
    true false None
  = Raise KeyError.
Proof.
  apply (compute_stats_grouped_KeyError
           {| index := [stamp 1 1 0; stamp 1 1 6]; columns := [[1; 2]%Q] |}
           [("mean"%string, {| func := circular_mean; kwargs := None |})]
           true false [0; 6] 0).
  - left. reflexivity.
  - vm_compute. discriminate.
  - left. reflexivity.
  - lia.
Defined.

Lemma check_stats_known_names_witness :
  exists d,
    _check_stats circular_mean circular_mean circular_mean
      (RNames ["std"; "mean"; "std"]%string) = Return d
    /\ d.*1 = ["std"; "mean"]%string.
Proof.
  destruct (check_stats_known_names circular_mean circular_mean circular_mean
              ["std"; "mean"; "std"]%string) as (d & Hd & _).
  - by_computation.
  - exists d. split; [exact Hd|].
    vm_compute in Hd. injection Hd as <-. reflexivity.
Defined.

Lemma check_stats_unknown_name_witness :
  _check_stats circular_mean circular_mean circular_mean
    (RNames ["mean"; "max"]%string) = Raise KeyError
  /\ _check_stats circular_mean circular_mean circular_mean
       (RStr "max") = Raise KeyError.
Proof.
  split.
  - apply (proj1 (check_stats_unknown_name circular_mean circular_mean
                    circular_mean ["mean"; "max"]%string "max"
                    ltac:(by_computation) ltac:(by_computation))).
  - apply (proj2 (check_stats_unknown_name circular_mean circular_mean
                    circular_mean ["max"]%string "max"
                    ltac:(by_computation) ltac:(by_computation))).
    reflexivity.
Defined.

Lemma check_stats_dict_witness :
  _check_stats circular_mean circular_mean circular_mean
    (RDict [("weighted_mean"%string,
             {| e_func := Some circular_mean;
                e_kwargs := Some (KwDict (Some (Some (Frame windspeed)))) |})])
  = Return [("weighted_mean"%string,
             {| e_func := Some circular_mean;
                e_kwargs := Some (KwDict (Some (Some (Frame windspeed)))) |})].
Proof.
  apply (check_stats_dict circular_mean circular_mean circular_mean).
  repeat constructor; [by eexists|done].
Defined.

Lemma save_stats_directory_witness :
  save_stats is_directory write_file "/data/wtk_*.h5" "/out"
  = ([to_csv "/out/wtk_.csv"], Return ())
  /\ save_stats is_directory write_file "/data/wtk_2012.h5" "/out/st*r"
     = ([to_csv "/out/str/wtk_2012.csv"],
        Raise (OSError "Cannot save file into a non-existent directory")).
Proof.
  split.
  - apply (save_stats_directory is_directory write_file
             "/data/wtk_*.h5" "/out").
    reflexivity.
  - apply (save_stats_directory is_directory write_file
             "/data/wtk_2012.h5" "/out/st*r").
    reflexivity.
Defined.

Lemma weighted_circular_mean_flags_unused_witness :
  let data := Ndarray dt_float [2; 2]%nat [0; 90; 180; 270]%Q in
  let weights := Ndarray dt_int [2; 2]%nat [1; 2; 3; 4]%Q in
  weighted_circular_mean (ops:=rational_ops) rational_nanmean data
    (Some weights) true 0 true false
  = weighted_circular_mean (ops:=rational_ops) rational_nanmean data
      (Some weights) true 0 false true.
Proof.
  intros data weights.
  rewrite (weighted_circular_mean_flags_unused (ops:=rational_ops)
             rational_nanmean data (Some weights) true 0 true false)
    by (by intros w [= <-]).
  rewrite (weighted_circular_mean_flags_unused (ops:=rational_ops)
             rational_nanmean data (Some weights) true 0 false true)
    by (by intros w [= <-]).
  reflexivity.
Defined.

End TemporalStatsRestFacts.

(** * Further properties of multi_res_resource.py *)

Module MultiResRestFacts.
Import MultiRes MultiResRest Examples MultiResFacts TraversalFacts.

(** *** Site mapping *)

Lemma np_item_Return (a : list Z) (i x : Z) :
  np_item a i = Return x
  <-> - Z.of_nat (length a) <= i < Z.of_nat (length a)
      /\ a !! Z.to_nat (if i <? 0 then i + Z.of_nat (length a) else i) = Some x.
Proof.
  unfold np_item.
  destruct (Z.leb_spec (- Z.of_nat (length a)) i),
           (Z.ltb_spec i (Z.of_nat (length a))); cbn;
    try (split; [done | intros [? _]; lia]).
  destruct (a !! _) as [y|] eqn:E.
  - split; [intros [= ->]; split; [lia | done] | by intros [_ [= ->]]].
  - split; [done | by intros [_ ?]].
Qed.

Lemma np_item_error (a : list Z) (i : Z) e :
  np_item a i = Raise e -> e = IndexError.
Proof.
  unfold np_item. destruct (_ && _); [|by intros [= <-]].
  destruct (a !! _); [done | by intros [= <-]].
Qed.

Lemma mapM_np_item_seq (a : list Z) (i k : nat) :
  (i + k <= length a)%nat ->
  mapM (np_item a) (map Z.of_nat (seq i k)) = Return (take k (drop i a)).
Proof.
  revert i. induction k as [|k IH]; intros i Hik; cbn.
  - by rewrite take_0.
  - assert (exists x, a !! i = Some x) as [x Hx]
      by (apply lookup_lt_is_Some_2; lia).
    assert (np_item a (Z.of_nat i) = Return x) as ->.
    { apply np_item_Return. split; [lia|].
      destruct (Z.ltb_spec (Z.of_nat i) 0); [lia|]. by rewrite Nat2Z.id. }
    cbn. rewrite IH by lia. cbn.
    by rewrite (drop_S a x i Hx).
Qed.

Lemma range_full (n : nat) : range 0 (Z.of_nat n) 1 = map Z.of_nat (seq 0 n).
Proof.
  unfold range, range_len. cbn [Z.ltb Z.compare].
  destruct (Z.ltb_spec 0 (Z.of_nat n)).
  - rewrite Z.div_1_r.
    replace (Z.to_nat (Z.of_nat n - 0 - 1 + 1)) with n by lia.
    apply map_ext. intros k. lia.
  - by replace n with 0%nat by lia.
Qed.

Section site_mapping.
Context {V : Type}.
Implicit Types (self : @MultiResolutionResource V).

(** X1: Reading every site, by [slice(None)] or by leaving the site axis out,
    asks the low-resolution handler for the whole nearest-neighbour map,
    in order: one low-resolution site per high-resolution site. *)
Theorem map_ds_slice_all_sites self t_slice :
  map_ds_slice self [t_slice; slice_all]
  = Return [t_slice; SArray (_nn_map self)]
  /\ map_ds_slice self [t_slice] = Return [t_slice; SArray (_nn_map self)].
Proof.
  assert (map_ds_slice self [t_slice; slice_all]
          = Return [t_slice; SArray (_nn_map self)]) as E.
  { unfold map_ds_slice. cbn -[np_getitem]. unfold np_getitem, slice_all.
    unfold slice_indices, clamp_index. cbn [default].
    destruct (Z.ltb_spec (Z.of_nat (length (_nn_map self))) 0); [lia|].
    cbn -[range mapM]. rewrite range_full, mapM_np_item_seq by done.
    cbn. by rewrite drop_0, firstn_all. }
  split; [exact E|]. by rewrite map_ds_slice_default.
Qed.

(** X2: A list of site ids within the map is translated position by position:
    entry [j] of the low-resolution selector is [nn_map[gids[j]]]. *)
Theorem map_ds_slice_gids self t_slice (gids : list nat) :
  Forall (fun g => (g < length (_nn_map self))%nat) gids ->
  exists lr_gids,
    map_ds_slice self [t_slice; SList (Z.of_nat <$> gids)]
    = Return [t_slice; SArray lr_gids]
    /\ length lr_gids = length gids
    /\ forall j g, gids !! j = Some g -> lr_gids !! j = _nn_map self !! g.
Proof.
  intros Hin.
  assert (exists lr_gids,
             mapM (np_item (_nn_map self)) (Z.of_nat <$> gids) = Return lr_gids
             /\ Forall2 (fun g x => _nn_map self !! g = Some x) gids lr_gids)
    as (lr_gids & Hm & Hall).
  { induction Hin as [|g gids Hg _ (r & Hr & Hall)]; cbn.
    - exists []. split; [done | constructor].
    - destruct (lookup_lt_is_Some_2 (_nn_map self) g Hg) as [x Hx].
      exists (x :: r). split; [|by constructor].
      assert (np_item (_nn_map self) (Z.of_nat g) = Return x) as ->.
      { apply np_item_Return. split; [lia|].
        destruct (Z.ltb_spec (Z.of_nat g) 0); [lia|]. by rewrite Nat2Z.id. }
      cbn. by rewrite Hr. }
  exists lr_gids. split_and!.
  - unfold map_ds_slice. cbn -[mapM]. by rewrite Hm.
  - symmetry. by eapply Forall2_length.
  - intros j g Hj.
    destruct (Forall2_lookup_l _ _ _ _ _ Hall Hj) as (x & -> & ->). done.
Qed.

(** X3: A site id outside the map ends the read with IndexError, whatever
    the low-resolution handler holds: the map is indexed before the
    handler is asked. *)
Theorem getitem_lr_site_out_of_range (lerp : V -> V -> nat -> nat -> V)
    (call_obj : string -> list selector -> result data)
    self ds t_slice (gids : list Z) (g : Z) :
  hr_pseudo (basename ds) = false ->
  contains "SAM" (basename ds) = false ->
  basename ds ∉ resource_datasets (_hr_res self) ->
  basename ds ∈ resource_datasets (_lr_res self) ->
  g ∈ gids ->
  ~ (- Z.of_nat (length (_nn_map self)) <= g < Z.of_nat (length (_nn_map self))) ->
  __getitem__ lerp call_obj self ds [t_slice; SList gids] = Raise IndexError
  /\ __getitem__ lerp call_obj self ds [t_slice; SArray gids] = Raise IndexError
  /\ __getitem__ lerp call_obj self ds [t_slice; SInt g] = Raise IndexError.
Proof.
  intros (Ht & Hm & Hc)%hr_pseudo_false Hsam Hhr Hlr Hg Hout.
  assert (mapM (np_item (_nn_map self)) gids = Raise IndexError) as Hlist.
  { destruct (mapM (np_item (_nn_map self)) gids) as [r|e] eqn:E.
    - apply mapM_Return in E.
      apply list_elem_of_lookup in Hg as [j Hj].
      destruct (Forall2_lookup_l _ _ _ _ _ E Hj) as (x & _ & Hx).
      apply np_item_Return in Hx as [? _]. done.
    - enough (e = IndexError) as -> by done.
      apply (mapM_error (np_item (_nn_map self)) gids e
               (fun e => e = IndexError)); [|done].
      intros x e'. apply np_item_error. }
  assert (np_item (_nn_map self) g = Raise IndexError) as Hint.
  { destruct (np_item (_nn_map self) g) as [x|e] eqn:E.
    - apply np_item_Return in E as [? _]. done.
    - enough (e = IndexError) as -> by done. by eapply np_item_error. }
  unfold __getitem__. rewrite Ht, Hm, Hc, Hsam.
  rewrite bool_decide_eq_false_2, bool_decide_eq_true_2 by done.
  unfold map_ds_slice. cbn -[mapM np_item]. by rewrite Hlist, Hint.
Qed.

(** X4: [map_ds_slice] takes a time selector, or a time and a site
    selector.  A key without any selector cannot be unpacked and raises
    ValueError; a key of more than two selectors raises the resource
    runtime error.  In both cases the map is not indexed and nothing is
    returned, so that a call that returns had one or two selectors. *)
Theorem map_ds_slice_arity self (ds_slice : list selector) :
  (ds_slice = [] ->
   map_ds_slice self ds_slice = Raise (ValueError "not enough values to unpack"))
  /\ ((2 < length ds_slice)%nat ->
      map_ds_slice self ds_slice
      = Raise (ResourceRuntimeError "Cannot handle ds_slice > 2D"))
  /\ (returns (map_ds_slice self ds_slice) ->
      (length ds_slice = 1 \/ length ds_slice = 2)%nat).
Proof.
  split_and!.
  - by intros ->.
  - intros Hlen. unfold map_ds_slice.
    destruct ds_slice as [|t [|s [|u rest]]]; cbn in *; (done || lia).
  - intros [r Hr]. unfold map_ds_slice in Hr.
    destruct ds_slice as [|t [|s [|u rest]]]; cbn in *; try done; auto.
Qed.

End site_mapping.

(** *** Temporal interpolation *)

Section time_interp_more.
Context {V : Type} (lerp : V -> V -> nat -> nat -> V).
Implicit Types (self : @MultiResolutionResource V) (c : list (option V)).

(** X5: [time_interp] returns exactly when the array has one row per
    low-resolution time step and the low-resolution labels are unique or
    the two time indices are the same; the result then has one row per
    high-resolution time step and as many site columns as before. *)
Theorem time_interp_returns self (cols : list (list (option V))) :
  (returns (time_interp lerp self (DArray cols))
   <-> Forall (fun c => length c = length (time_index (_lr_res self))) cols
       /\ (time_index (_hr_res self) = time_index (_lr_res self)
           \/ NoDup (time_index (_lr_res self))))
  /\ (forall out,
        time_interp lerp self (DArray cols) = Return out ->
        exists ocols,
          out = DArray ocols
          /\ length ocols = length cols
          /\ Forall (fun c => length c = length (time_index (_hr_res self)))
                ocols).
Proof.
  unfold time_interp. split.
  - destruct (forallb _ cols) eqn:Hlen; cbn.
    + apply forallb_length_eq in Hlen.
      destruct (bool_decide_reflect
                  (time_index (_hr_res self) = time_index (_lr_res self)));
        cbn.
      * split; [by auto | by eexists].
      * destruct (bool_decide_reflect (NoDup (time_index (_lr_res self))));
          cbn.
        -- split; [by auto | by eexists].
        -- split; [by intros [? ?] | intros [_ [?|?]]; done].
    + split; [by intros [? ?]|]. intros [Hall _].
      apply forallb_length_eq in Hall. congruence.
  - intros out. destruct (forallb _ cols) eqn:Hlen; cbn; [|done].
    apply forallb_length_eq in Hlen.
    destruct (negb _ && negb _); [done|]. intros [= <-].
    eexists. split; [done|]. split; [by rewrite length_map|].
    apply Forall_forall. intros o Ho. apply list_elem_of_In in Ho.
    apply in_map_iff in Ho as (c & <- & Hc). apply list_elem_of_In in Hc.
    rewrite fill_length. case_bool_decide as Heq.
    + rewrite Heq. by eapply Forall_forall in Hlen.
    + apply reindex_length.
Qed.

(** A column without NaN goes through the chain unchanged. *)
Lemma interpolate_after_full prev k c :
  Forall is_Some c -> interpolate_after lerp prev k c = c.
Proof.
  intros Hc. revert prev k.
  induction Hc as [|x c [v ->] _ IH]; intros prev k; cbn; [done|].
  by rewrite IH.
Qed.

Lemma fill_full c : Forall is_Some c -> fill lerp c = c.
Proof.
  intros Hc. unfold fill, ffill.
  assert (interpolate lerp c = c) as ->.
  { destruct Hc as [|x c [v ->] Hc]; cbn; [done|].
    by rewrite interpolate_after_full. }
  assert (forall p, ffill_from p c = c) as ->.
  { induction Hc as [|x c [v ->] _ IH]; intros p; cbn; [done|].
    by rewrite IH. }
  induction Hc as [|x c [v ->] _ IH]; cbn; [done|]. by rewrite IH.
Qed.

(** X6: When the two handlers share one time index and the low-resolution
    data have no NaN, the data come back as they are. *)
Theorem time_interp_same_index self (cols : list (list (option V))) :
  time_index (_hr_res self) = time_index (_lr_res self) ->
  Forall (fun c => length c = length (time_index (_lr_res self))) cols ->
  Forall (Forall is_Some) cols ->
  time_interp lerp self (DArray cols) = Return (DArray cols).
Proof.
  intros Heq Hlen Hfull. unfold time_interp.
  rewrite (proj2 (forallb_length_eq _ _)) by done. cbn.
  rewrite (bool_decide_eq_true_2 _ Heq). cbn. do 2 f_equal.
  rewrite <- (map_id cols) at 2. apply map_ext_in.
  intros c Hc%list_elem_of_In. apply fill_full.
  by eapply Forall_forall in Hfull.
Qed.

(** X7: What the chain [interpolate('linear').ffill().bfill()] puts into the
    gaps of a column.  Between two valid samples that are [S m] rows
    apart, row [S i] after the first receives the interpolation [S i]
    steps out of [S m]: rows count, not their time labels. *)
Theorem fill_between pre a m b post i :
  (i < m)%nat ->
  fill lerp (pre ++ Some a :: replicate m None ++ Some b :: post)
    !! (length pre + S i)%nat
  = Some (Some (lerp a b (S i) (S m))).
Proof.
  intros Hi. unfold fill, ffill. apply bfill_valid, ffill_from_valid.
  by apply interpolate_between.
Qed.

(** X8: Rows before the first valid sample take that sample, rows after the
    last valid sample take the last one. *)
Theorem fill_edges m a j :
  (j <= m)%nat ->
  (forall post,
      fill lerp (replicate m None ++ Some a :: post) !! j = Some (Some a))
  /\ (forall pre,
        fill lerp (pre ++ Some a :: replicate m None) !! (length pre + j)%nat
        = Some (Some a)).
Proof.
  intros Hj. split.
  - intros post. unfold fill, ffill.
    destruct (ffill_interpolate_leading lerp m a post) as [r ->].
    rewrite bfill_leading.
    assert (replicate m (Some a) ++ Some a :: bfill r
            = [] ++ replicate (S m) (Some a) ++ bfill r) as ->.
    { cbn [app]. rewrite replicate_S_end. by rewrite <- app_assoc. }
    by apply (lookup_replicate_run [] (bfill r) (Some a) m j).
  - intros pre. unfold fill.
    destruct (interpolate_app lerp pre a (replicate m None))
      as (pre' & Hl & ->).
    rewrite interpolate_after_trailing. unfold ffill.
    change (Some a :: replicate m (Some a)) with (replicate (S m) (Some a)).
    destruct (ffill_from_trailing None pre' a m) as (l' & Hl' & ->).
    destruct (bfill_trailing l' a m) as (l'' & Hl'' & ->).
    replace (length pre) with (length l'') by lia.
    rewrite <- (app_nil_r (replicate (S m) (Some a))).
    by apply lookup_replicate_run.
Qed.

End time_interp_more.

(** *** Datasets of the composite: membership and iteration *)

Section datasets.
Context {V : Type}.
Implicit Types (self : @MultiResolutionResource V).

Lemma datasets_not_own self : "datasets" ∉ dir self.
Proof. unfold dir. destruct (_i self); by_computation. Qed.

(** [self.datasets] with two handlers that list their datasets. *)
Lemma getattr_datasets self (h l : list atom) :
  h_getattr (_hr_res self) "datasets" = Some (VList h) ->
  h_getattr (_lr_res self) "datasets" = Some (VList l) ->
  getattr self "datasets" = Return (VList (list_set (h ++ l))).
Proof.
  intros Hh Hl. unfold getattr, lookup.
  rewrite decide_False by done. rewrite decide_False by done.
  rewrite decide_False by by_computation.
  unfold __getattr__.
  rewrite decide_False by apply datasets_not_own.
  rewrite decide_False by by_computation.
  unfold h_get. by rewrite Hh, Hl.
Qed.

(** X9: [dset in composite] holds exactly for the datasets of either
    handler. *)
Theorem contains_either_handler self (h l : list atom) (dset : atom) :
  h_getattr (_hr_res self) "datasets" = Some (VList h) ->
  h_getattr (_lr_res self) "datasets" = Some (VList l) ->
  __contains__ self dset = Return (bool_decide (dset ∈ h \/ dset ∈ l)).
Proof.
  intros Hh Hl. unfold __contains__. rewrite (getattr_datasets self h l) by done.
  cbn. f_equal. apply bool_decide_ext.
  destruct (list_set_spec (h ++ l)) as [_ Hin]. by rewrite Hin, elem_of_app.
Qed.

Lemma iterate_step fuel self (acc : list pyval) :
  iterate (S fuel) self acc
  = match __next__ self with
    | (self, Return dset) => iterate fuel self (acc ++ [dset])
    | (self, Raise StopIteration) => Some (self, Return acc)
    | (self, Raise e) => Some (self, Raise e)
    end.
Proof. reflexivity. Qed.

Lemma iterate_from self (h l : list atom) (i : nat) (acc : list pyval) :
  h_getattr (_hr_res self) "datasets" = Some (VList h) ->
  h_getattr (_lr_res self) "datasets" = Some (VList l) ->
  _i self = Some (Z.of_nat i) ->
  (i <= length (list_set (h ++ l)))%nat ->
  iterate (S (length (list_set (h ++ l)) - i)) self acc
  = Some (set_i self 0,
          Return (acc ++ (VAtom <$> drop i (list_set (h ++ l))))).
Proof.
  intros Hh Hl. set (ds := list_set (h ++ l)).
  remember (length ds - i)%nat as k eqn:Hk.
  revert self i acc Hh Hl Hk. induction k as [|k IH];
    intros self i acc Hh Hl Hk Hi Hle.
  - rewrite iterate_step.
    rewrite (next_with_counter self (Z.of_nat i) ds) by
      (done || lia || by apply getattr_datasets).
    rewrite Nat2Z.id. rewrite lookup_ge_None_2 by lia.
    rewrite drop_ge by lia. cbn. by rewrite app_nil_r.
  - rewrite iterate_step.
    rewrite (next_with_counter self (Z.of_nat i) ds) by
      (done || lia || by apply getattr_datasets).
    rewrite Nat2Z.id.
    destruct (ds !! i) as [dset|] eqn:Hd;
      [|apply lookup_ge_None in Hd; lia].
    rewrite (IH (set_i self (Z.of_nat i + 1)) (S i)); try done; try lia.
    + cbn. do 3 f_equal. rewrite (drop_S ds dset i Hd).
      rewrite <- app_assoc. done.
    + cbn. f_equal. lia.
Qed.

(** X10: Once the counter [_i] holds 0, a loop over the composite yields every
    dataset of the two handlers once, and leaves the counter at 0: the
    next loop yields the same sequence again. *)
Theorem iterate_all_datasets self (h l : list atom) :
  h_getattr (_hr_res self) "datasets" = Some (VList h) ->
  h_getattr (_lr_res self) "datasets" = Some (VList l) ->
  _i self = Some 0 ->
  exists ds : list atom,
    NoDup ds /\ (forall x, x ∈ ds <-> x ∈ h \/ x ∈ l)
    /\ iterate (S (length ds)) self [] = Some (set_i self 0, Return (VAtom <$> ds))
    /\ iterate (S (length ds)) (set_i self 0) []
       = Some (set_i self 0, Return (VAtom <$> ds)).
Proof.
  intros Hh Hl Hi. exists (list_set (h ++ l)).
  destruct (list_set_spec (h ++ l)) as [Hnd Hin].
  split; [done|]. split; [intros x; by rewrite Hin, elem_of_app|].
  split.
  - rewrite <- (Nat.sub_0_r (length _)).
    by rewrite (iterate_from self h l 0 []) by (done || lia).
  - rewrite <- (Nat.sub_0_r (length _)).
    by rewrite (iterate_from (set_i self 0) h l 0 []) by (done || lia).
Qed.

End datasets.

(** *** Routing of reads *)

Section routing.
Context {V : Type} (lerp : V -> V -> nat -> nat -> V).
Context (call_obj : string -> list selector -> result (@data V)).
Implicit Types (self : @MultiResolutionResource V).

Lemma prefix_cons a p c s :
  String.prefix (String a p) (String c s)
  = if Ascii.ascii_dec a c then String.prefix p s else false.
Proof. reflexivity. Qed.

Lemma assign_then_return {A} (c : result A) :
  (out ← (out ← c; Return (Some out)); read_local "out" out) = c.
Proof. by destruct c. Qed.

(** X11: A dataset of the high-resolution catalog is read from the
    high-resolution handler with the key as given and handed on as it is:
    no site mapping and no interpolation, also when the low-resolution
    handler has a dataset of that name. *)
Theorem getitem_hr_dataset self ds ds_slice :
  hr_pseudo (basename ds) = false ->
  contains "SAM" (basename ds) = false ->
  basename ds ∈ resource_datasets (_hr_res self) ->
  __getitem__ lerp call_obj self ds ds_slice = _get_ds (_hr_res self) ds ds_slice.
Proof.
  intros (Ht & Hm & Hc)%hr_pseudo_false Hsam Hhr. unfold __getitem__.
  rewrite Ht, Hm, Hc, Hsam, bool_decide_eq_true_2 by done.
  apply assign_then_return.
Qed.

(** X12: The time index, the meta data and the coordinates always come from
    the high-resolution handler, chosen by the prefix of the name alone. *)
Theorem getitem_pseudo_datasets self ds ds_slice :
  (String.prefix "time_index" (basename ds) = true ->
   __getitem__ lerp call_obj self ds ds_slice
   = _get_time_index (_hr_res self) ds ds_slice)
  /\ (String.prefix "meta" (basename ds) = true ->
      __getitem__ lerp call_obj self ds ds_slice
      = _get_meta (_hr_res self) ds ds_slice)
  /\ (String.prefix "coordinates" (basename ds) = true ->
      __getitem__ lerp call_obj self ds ds_slice
      = _get_coords (_hr_res self) ds ds_slice).
Proof.
  assert (forall s, String.prefix "meta" s = true ->
                    String.prefix "time_index" s = false) as Hmt.
  { intros [|c s] H; [done|]. rewrite prefix_cons in H.
    destruct (Ascii.ascii_dec "m" c) as [<-|]; [reflexivity | done]. }
  assert (forall s, String.prefix "coordinates" s = true ->
                    String.prefix "time_index" s = false
                    /\ String.prefix "meta" s = false) as Hco.
  { intros [|c s] H; [done|]. rewrite prefix_cons in H.
    destruct (Ascii.ascii_dec "c" c) as [<-|]; [by split | done]. }
  unfold __getitem__. split_and!.
  - intros ->. apply assign_then_return.
  - intros Hm. rewrite (Hmt _ Hm), Hm. apply assign_then_return.
  - intros Hc. destruct (Hco _ Hc) as [-> ->]. rewrite Hc.
    apply assign_then_return.
Qed.

End routing.

(** *** SAM preload *)

Section preload.
Context {V : Type}.
Context (h_preload_SAM : @Handler V -> list Z -> result (@data V)).
Implicit Types (self : @MultiResolutionResource V).

(** X13: [_preload_SAM] returns the high-resolution bundle and nothing of the
    low-resolution one; yet it returns only if every site is within the
    nearest-neighbour map and the low-resolution preload of the mapped
    sites succeeds as well. *)
Theorem preload_SAM_returns self (hr_sites : list Z) (hr_sam : data) :
  _preload_SAM h_preload_SAM self hr_sites = Return hr_sam
  <-> h_preload_SAM (_hr_res self) hr_sites = Return hr_sam
      /\ exists lr_sites,
           Forall2 (fun g x => np_item (_nn_map self) g = Return x)
             hr_sites lr_sites
           /\ returns (h_preload_SAM (_lr_res self) lr_sites).
Proof.
  unfold _preload_SAM. split.
  - destruct (h_preload_SAM (_hr_res self) hr_sites) as [b|e]; [|done].
    cbn -[mapM].
    destruct (mapM _ hr_sites) as [lr_sites|e] eqn:Em; [|done].
    cbn -[mapM].
    destruct (h_preload_SAM (_lr_res self) lr_sites) as [b'|e] eqn:El; [|done].
    intros [= <-]. split; [done|]. exists lr_sites.
    split; [by apply mapM_Return | by eexists].
  - intros (-> & lr_sites & Hm%mapM_Return & [b' Hb']).
    cbn -[mapM]. rewrite Hm. cbn. by rewrite Hb'.
Qed.

End preload.

(** *** The statements on concrete inputs *)

Lemma map_ds_slice_gids_witness :
  exists lr_gids,
    map_ds_slice mrr [slice_all; SList [1; 0]] = Return [slice_all; SArray lr_gids]
    /\ length lr_gids = 2%nat.
Proof.
  destruct (map_ds_slice_gids mrr slice_all [1; 0]%nat ltac:(by_computation))
    as (lr_gids & H & Hlen & _).
  exists lr_gids. split; [exact H|exact Hlen].
Defined.

Lemma getitem_lr_site_out_of_range_witness :
  __getitem__ lerp_Q no_call mrr "temperature_100m" [slice_all; SInt 2]
  = Raise IndexError.
Proof.
  apply (getitem_lr_site_out_of_range lerp_Q no_call mrr "temperature_100m"
           slice_all [2] 2
           ltac:(reflexivity) ltac:(reflexivity)
           ltac:(by_computation) ltac:(by_computation) ltac:(by_computation)).
  cbn. lia.
Defined.

Lemma map_ds_slice_arity_witness :
  map_ds_slice mrr [] = Raise (ValueError "not enough values to unpack")
  /\ map_ds_slice mrr [slice_all; SInt 0; SInt 0]
     = Raise (ResourceRuntimeError "Cannot handle ds_slice > 2D")
  /\ (length [slice_all; SInt 1] = 1 \/ length [slice_all; SInt 1] = 2)%nat.
Proof.
  split_and!.
  - apply (proj1 (map_ds_slice_arity mrr [])). reflexivity.
  - apply (proj1 (proj2 (map_ds_slice_arity mrr [slice_all; SInt 0; SInt 0]))).
    cbn. lia.
  - apply (proj2 (proj2 (map_ds_slice_arity mrr [slice_all; SInt 1]))).
    eexists. reflexivity.
Defined.

Lemma time_interp_same_index_witness :
  time_interp lerp_Q
    {| _hr_res := hr_res; _lr_res := hr_res; _nn_map := [0; 1];
       _nn_d := None; _i := None |}
    (DArray [[Some 1%Q; Some 2%Q; Some 3%Q; Some 4%Q]])
  = Return (DArray [[Some 1%Q; Some 2%Q; Some 3%Q; Some 4%Q]]).
Proof.
  apply (time_interp_same_index lerp_Q
           {| _hr_res := hr_res; _lr_res := hr_res; _nn_map := [0; 1];
              _nn_d := None; _i := None |}).
  - reflexivity.
  - repeat constructor.
  - repeat constructor; by eexists.
Defined.

Lemma fill_between_witness :
  fill lerp_Q [None; Some 10%Q; None; None; None; Some 50%Q] !! 3%nat
  = Some (Some 30%Q).
Proof.
  apply (fill_between lerp_Q [None] 10%Q 3 50%Q [] 1). lia.
Defined.

Lemma fill_edges_witness :
  fill lerp_Q [None; None; Some 7%Q; Some 9%Q] !! 1%nat = Some (Some 7%Q)
  /\ fill lerp_Q [Some 7%Q; Some 9%Q; None; None] !! 3%nat = Some (Some 9%Q).
Proof.
  split.
  - apply (proj1 (fill_edges lerp_Q 2 7%Q 1 ltac:(lia)) [Some 9%Q]).
  - apply (proj2 (fill_edges lerp_Q 2 9%Q 2 ltac:(lia)) [Some 7%Q]).
Defined.

Lemma contains_either_handler_witness :
  __contains__ mrr (AStr "temperature_100m") = Return true
  /\ __contains__ mrr (AStr "pressure_100m") = Return false.
Proof.
  split.
  - apply (eq_trans
             (contains_either_handler mrr
                (AStr <$> ["time_index"; "meta"; "windspeed_100m"])
                (AStr <$> ["time_index"; "meta"; "temperature_100m"])
                (AStr "temperature_100m") eq_refl eq_refl)).
    vm_compute. reflexivity.
  - apply (eq_trans
             (contains_either_handler mrr
                (AStr <$> ["time_index"; "meta"; "windspeed_100m"])
                (AStr <$> ["time_index"; "meta"; "temperature_100m"])
                (AStr "pressure_100m") eq_refl eq_refl)).
    vm_compute. reflexivity.
Defined.

Lemma iterate_all_datasets_witness :
  exists ds : list atom,
    length ds = 4%nat
    /\ iterate (S (length ds)) (set_i mrr 0) []
       = Some (set_i mrr 0, Return (VAtom <$> ds)).
Proof.
  destruct (iterate_all_datasets (set_i mrr 0)
              (AStr <$> ["time_index"; "meta"; "windspeed_100m"])
              (AStr <$> ["time_index"; "meta"; "temperature_100m"])
              ltac:(reflexivity) ltac:(reflexivity) ltac:(reflexivity))
    as (ds & _ & _ & H & _).
  exists ds. split; [|exact H].
  destruct ds as [|? [|? [|? [|? [|? ds]]]]]; vm_compute in H; try done.
Defined.

Lemma getitem_hr_dataset_witness :
  __getitem__ lerp_Q no_call mrr "windspeed_100m" [slice_all]
  = _get_ds hr_res "windspeed_100m" [slice_all].
Proof.
  apply (getitem_hr_dataset lerp_Q no_call mrr "windspeed_100m" [slice_all]).
  - reflexivity.
  - reflexivity.
  - by_computation.
Defined.

Lemma getitem_pseudo_datasets_witness :
  __getitem__ lerp_Q no_call mrr "meta_SAM" [SInt 0]
  = Return (DOther (VObj "meta")).
Proof.
  apply (proj1 (proj2 (getitem_pseudo_datasets lerp_Q no_call mrr "meta_SAM"
                         [SInt 0]))).
  reflexivity.
Defined.

End MultiResRestFacts.
